(** * k8up operator: backup and check executors

    A shallow embedding of [operator/backupcontroller/executor.go] and of the
    check executor (package [checkcontroller]), with the properties of their
    lifecycle gating, volume discovery, volume assembly and argument
    construction.

    Go strings are [string], Go maps with string keys are [gmap string _],
    slices are lists, nil-able pointers are [option].  Calls into the cluster
    and into the generic executor are recorded as events of a trace; a Go
    panic is an outcome of its own. *)

From stdpp Require Import gmap strings list.

Local Open Scope string_scope.
Local Open Scope list_scope.

(** ** Go runtime: errors, panics, effects *)

(** A Go [error] value, as built by [errors.New] and [fmt.Errorf]. *)
Inductive error : Type :=
| errorString (s : string).

(** [err.Error()] *)
Definition Error (e : error) : string :=
  match e with errorString s => s end.

(** What a call leaves behind: a value, or a panic unwinding the stack. *)
Inductive outcome (A : Type) : Type :=
| Done (a : A)
| Panicked (why : string).
Arguments Done {A} a.
Arguments Panicked {A} why.

#[global] Instance outcome_ret : MRet outcome := λ A a, Done a.
#[global] Instance outcome_bind : MBind outcome := λ A B f m,
  match m with
  | Done a => f a
  | Panicked w => Panicked w
  end.

(** ** Kubernetes core types ([corev1], [batchv1], [types]) *)

Record PersistentVolumeClaimVolumeSource : Type := {
  ClaimName : string;
  ReadOnly : bool
}.

Record SecretVolumeSource : Type := { SecretName : string }.
Record ConfigMapVolumeSource : Type := { ConfigMapName : string }.
Record EmptyDirVolumeSource : Type := { Medium : string }.

(** [corev1.VolumeSource]: a struct of pointers, one per kind of source. *)
Record VolumeSource : Type := {
  vsPersistentVolumeClaim : option PersistentVolumeClaimVolumeSource;
  vsSecret : option SecretVolumeSource;
  vsConfigMap : option ConfigMapVolumeSource;
  vsEmptyDir : option EmptyDirVolumeSource
}.

(** The zero value [corev1.VolumeSource{}]. *)
Definition zeroVolumeSource : VolumeSource :=
  {| vsPersistentVolumeClaim := None; vsSecret := None;
     vsConfigMap := None; vsEmptyDir := None |}.

Record Volume : Type := {
  volName : string;
  volSource : VolumeSource
}.

Record VolumeMount : Type := {
  vmName : string;
  vmMountPath : string;
  vmReadOnly : bool
}.

Record EnvVar : Type := {
  envName : string;
  envValue : string
}.

Record Container : Type := {
  cEnv : list EnvVar;
  cVolumeMounts : list VolumeMount;
  cArgs : list string
}.

(** [batchv1.Job], flattened to the fields the executors touch:
    [Spec.Template.Spec.{Containers,Volumes,ServiceAccountName}]. *)
Record Job : Type := {
  jobName_ : string;
  jobNamespace : string;
  jobLabels : option (gmap string string);
  jobContainers : list Container;
  jobVolumes : list Volume;
  jobServiceAccountName : string
}.

(** [&batchv1.Job{}] *)
Definition zeroJob : Job :=
  {| jobName_ := ""; jobNamespace := ""; jobLabels := None;
     jobContainers := []; jobVolumes := []; jobServiceAccountName := "" |}.

Record NamespacedName : Type := {
  nnNamespace : string;
  nnName : string
}.

(** [corev1.PersistentVolumeClaim]: name, annotations, [Spec.AccessModes]. *)
Record PersistentVolumeClaim : Type := {
  pvcName : string;
  pvcAnnotations : gmap string string;
  pvcAccessModes : list string
}.

(** Field assignments on a job held by pointer. *)
Definition setJobVolumes (vs : list Volume) (j : Job) : Job :=
  {| jobName_ := jobName_ j; jobNamespace := jobNamespace j;
     jobLabels := jobLabels j; jobContainers := jobContainers j;
     jobVolumes := vs; jobServiceAccountName := jobServiceAccountName j |}.

Definition setJobServiceAccountName (sa : string) (j : Job) : Job :=
  {| jobName_ := jobName_ j; jobNamespace := jobNamespace j;
     jobLabels := jobLabels j; jobContainers := jobContainers j;
     jobVolumes := jobVolumes j; jobServiceAccountName := sa |}.

Definition setJobContainers (cs : list Container) (j : Job) : Job :=
  {| jobName_ := jobName_ j; jobNamespace := jobNamespace j;
     jobLabels := jobLabels j; jobContainers := cs;
     jobVolumes := jobVolumes j;
     jobServiceAccountName := jobServiceAccountName j |}.

Definition setJobName (n ns : string) (j : Job) : Job :=
  {| jobName_ := n; jobNamespace := ns;
     jobLabels := jobLabels j; jobContainers := jobContainers j;
     jobVolumes := jobVolumes j;
     jobServiceAccountName := jobServiceAccountName j |}.

(** [job.Labels[k] = v]: an assignment into a nil map panics. *)
Definition setJobLabel (k v : string) (j : Job) : outcome Job :=
  match jobLabels j with
  | None => Panicked "assignment to entry in nil map"
  | Some m =>
      Done {| jobName_ := jobName_ j; jobNamespace := jobNamespace j;
              jobLabels := Some (<[k := v]> m);
              jobContainers := jobContainers j; jobVolumes := jobVolumes j;
              jobServiceAccountName := jobServiceAccountName j |}
  end.

(** [job.Spec.Template.Spec.Containers[0].f = ...]: indexing an empty slice
    panics. *)
Definition updContainer0 (f : Container → Container) (j : Job) : outcome Job :=
  match jobContainers j with
  | [] => Panicked "index out of range [0] with length 0"
  | c0 :: cs => Done (setJobContainers (f c0 :: cs) j)
  end.

Definition setEnv (e : list EnvVar) (c : Container) : Container :=
  {| cEnv := e; cVolumeMounts := cVolumeMounts c; cArgs := cArgs c |}.
Definition setVolumeMounts (m : list VolumeMount) (c : Container) : Container :=
  {| cEnv := cEnv c; cVolumeMounts := m; cArgs := cArgs c |}.
Definition setArgs (a : list string) (c : Container) : Container :=
  {| cEnv := cEnv c; cVolumeMounts := cVolumeMounts c; cArgs := a |}.

(** ** [strconv.ParseBool] (Go standard library) *)

Definition doubleQuote : string := String (Ascii.ascii_of_nat 34) EmptyString.

Definition ParseBool (str : string) : bool * option error :=
  if (String.eqb str "1" || String.eqb str "t" || String.eqb str "T"
      || String.eqb str "true" || String.eqb str "TRUE"
      || String.eqb str "True")%bool
  then (true, None)
  else if (String.eqb str "0" || String.eqb str "f" || String.eqb str "F"
           || String.eqb str "false" || String.eqb str "FALSE"
           || String.eqb str "False")%bool
  then (false, None)
  else (false,
        Some (errorString ("strconv.ParseBool: parsing " +:+ doubleQuote +:+ str
                           +:+ doubleQuote +:+ ": invalid syntax"))).

(** ** k8up API types ([k8upv1]) and configuration ([cfg], [job]) *)

(** [k8upv1.Status], seen through the four predicates the backup executor
    calls on it.  Their bodies are in the API package; each is a
    side-effect-free reading of the status, taken here as a field. *)
Record Status : Type := {
  HasFailed : bool;
  HasSucceeded : bool;
  HasStarted : bool;
  IsWaitingForPreBackup : bool
}.

Record Backup : Type := {
  backupName : string;
  backupNamespace : string;
  backupTags : list string;
  backupStatus : Status
}.

(** [Backend.Options]: the TLS material of a backend. *)
Record BackendOpts : Type := {
  CACert : string;
  ClientCert : string;
  ClientKey : string
}.

Record Backend : Type := {
  beOptions : option BackendOpts;
  beVolumeMounts : option (list VolumeMount)
}.

(** [k8upv1.RunnableVolumeSpec]: a name and three optional sources. *)
Record RunnableVolumeSpec : Type := {
  rvName : string;
  rvPersistentVolumeClaim : option PersistentVolumeClaimVolumeSource;
  rvSecret : option SecretVolumeSource;
  rvConfigMap : option ConfigMapVolumeSource
}.

Record Check : Type := {
  checkName : string;
  checkNamespace : string;
  checkBackend : option Backend;
  checkVolumes : option (list RunnableVolumeSpec)
}.

(** The dynamic type of the [JobObject] interface value handed to an
    executor. *)
Inductive JobObject : Type :=
| ObjBackup (b : Backup)
| ObjCheck (c : Check)
| ObjOther (kind name : string).

(** [job.Config] *)
Record Config : Type := { Obj : JobObject }.

(** [cfg.Config], the process-wide configuration. *)
Record Configuration : Type := {
  PodVarDir : string;
  BackupAnnotation : string;
  ServiceAccount : string;
  GlobalConcurrentBackupJobsLimit : Z;
  GlobalConcurrentCheckJobsLimit : Z
}.

Inductive ConditionType : Type := ConditionReady | ConditionOther (s : string).
Inductive ConditionReason : Type :=
| ReasonCreationFailed
| ReasonRetrievalFailed
| ReasonOther (s : string).

(** ** Effects *)

(** What an executor asks of its collaborators (the logger, the generic
    executor, the cluster client), in call order. *)
Inductive Event : Type :=
| EvLogInfo (msg : string) (kv : list (string * string))
| EvStopPreBackupDeployments
| EvCleanupOldResources (listKind : string) (name : NamespacedName)
    (current : option JobObject)
| EvCreateServiceAccountAndBinding
| EvStartPreBackup
| EvFetchPVCs
| EvSetConditionFalseWithMessage (c : ConditionType) (r : ConditionReason)
    (format : string) (args : list string)
| EvCreateObjectIfNotExisting (j : Job)
| EvCreateOrUpdate (j : Job)
| EvSetStarted (format : string) (args : list string).

(** A computation: the calls it made, then its outcome. *)
Record Eff (A : Type) : Type := mkEff {
  trace : list Event;
  result : outcome A
}.
Arguments mkEff {A} trace result.
Arguments trace {A} e.
Arguments result {A} e.

#[global] Instance Eff_ret : MRet Eff := λ A a, mkEff [] (Done a).
#[global] Instance Eff_bind : MBind Eff := λ A B f m,
  match result m with
  | Done a => mkEff (trace m ++ trace (f a)) (result (f a))
  | Panicked w => mkEff (trace m) (Panicked w)
  end.

Definition emit (e : Event) : Eff unit := mkEff [e] (Done ()).
Definition call {A : Type} (e : Event) (a : A) : Eff A := mkEff [e] (Done a).
Definition lift {A : Type} (o : outcome A) : Eff A := mkEff [] o.

(** Dereferencing a pointer: nil panics. *)
Definition deref {A : Type} (p : option A) : outcome A :=
  match p with
  | Some a => Done a
  | None => Panicked "invalid memory address or nil pointer dereference"
  end.

Definition LogInfo (msg : string) (kv : list (string * string)) : Eff unit :=
  emit (EvLogInfo msg kv).

(** Is this event a request to create a workload? *)
Definition isWorkloadCreation (e : Event) : bool :=
  match e with
  | EvCreateObjectIfNotExisting _ | EvCreateOrUpdate _ => true
  | _ => false
  end.

(** The volume every workload mounts as its working directory. *)
Definition _dataDirName : string := "k8up-dir".

(** A scratch volume: the fixed name, backed by an empty directory. *)
Definition isScratch (v : Volume) : bool :=
  String.eqb (volName v) _dataDirName
  && match vsEmptyDir (volSource v) with Some _ => true | None => false end.

Definition countScratch (vs : list Volume) : nat :=
  length (List.filter isScratch vs).

(** ** Package [backupcontroller] *)

Module backupcontroller.

(** The code the backup executor calls that lives outside
    [executor.go]: helpers of its own package, the embedded generic
    executor, the job package, and the answers of the cluster. *)
Record Collaborators : Type := {
  (** [fmt]'s rendering of an object under the verb v *)
  fmtV : JobObject → string;
  (** helper of the package: does the slice of access modes hold this one *)
  containsAccessMode : list string → string → bool;
  (** [Generic.GetJobNamespacedName] *)
  jobNamespacedName : Config → NamespacedName;
  (** answer of [createServiceAccountAndBinding] *)
  serviceAccountAnswer : option error;
  (** [job.GenerateGenericJob] *)
  generateGenericJob : JobObject → Config → Job * option error;
  (** answer of [Generic.StartPreBackup] *)
  preBackupAnswer : bool * option error;
  (** answer of [fetchPVCs]: the items of the claim list, and the error *)
  claimListAnswer : list PersistentVolumeClaim * option error;
  (** [setupEnvVars] *)
  envVars : option Backup → list EnvVar;
  (** [BackupSpec.AppendEnvFromToContainer] *)
  appendEnvFrom : Backup → Container → Container;
  (** [newVolumeMounts] *)
  volumeMounts : list Volume → list VolumeMount;
  (** [executor.BuildTagArgs] *)
  buildTagArgs : list string → list string;
  (** answer of [Generic.CreateObjectIfNotExisting] *)
  createAnswer : Job → option error
}.

(** [BackupExecutor]: the embedded [executor.Generic] (its [Config]) and the
    [backup] pointer. *)
Record BackupExecutor : Type := {
  Generic : Config;
  backup : option Backup
}.

Definition NewBackupExecutor (config : Config) : BackupExecutor :=
  {| Generic := config; backup := None |}.

Definition GetConcurrencyLimit (cfg : Configuration) (b : BackupExecutor) : Z :=
  GlobalConcurrentBackupJobsLimit cfg.

Section Executor.

Variable cfg : Configuration.
Variable W : Collaborators.

Definition StopPreBackupDeployments : Eff unit :=
  emit EvStopPreBackupDeployments.

Definition createServiceAccountAndBinding : Eff (option error) :=
  call EvCreateServiceAccountAndBinding (serviceAccountAnswer W).

Definition StartPreBackup : Eff (bool * option error) :=
  call EvStartPreBackup (preBackupAnswer W).

Definition fetchPVCs : Eff (list PersistentVolumeClaim * option error) :=
  call EvFetchPVCs (claimListAnswer W).

Definition SetConditionFalseWithMessage (c : ConditionType)
    (r : ConditionReason) (format : string) (args : list string) : Eff unit :=
  emit (EvSetConditionFalseWithMessage c r format args).

Definition CreateObjectIfNotExisting (j : Job) : Eff (option error) :=
  call (EvCreateObjectIfNotExisting j) (createAnswer W j).

(** The volume built for a claim that passed the filter. *)
Definition tmpVol (item : PersistentVolumeClaim) : Volume :=
  {| volName := pvcName item;
     volSource :=
       {| vsPersistentVolumeClaim :=
            Some {| ClaimName := pvcName item; ReadOnly := false |};
          vsSecret := None; vsConfigMap := None; vsEmptyDir := None |} |}.

(** [annotations[annotation]] with the comma-ok form. *)
Definition lookupOk (annotations : gmap string string) (annotation : string)
    : string * bool :=
  match annotations !! annotation with
  | Some v => (v, true)
  | None => ("", false)
  end.

(** The [for _, item := range claimlist.Items] loop of [listAndFilterPVCs],
    with the slice [volumes] it appends to. *)
Fixpoint rangeItems (annotation : string) (items : list PersistentVolumeClaim)
    (volumes : list Volume) : Eff (list Volume) :=
  match items with
  | [] => mret volumes
  | item :: rest =>
      let annotations := pvcAnnotations item in
      let '(tmpAnnotation, ok) := lookupOk annotations annotation in
      if negb (containsAccessMode W (pvcAccessModes item) "ReadWriteMany")
         && negb ok
      then
        LogInfo "PVC isn't RWX" [("pvc", pvcName item)];;
        rangeItems annotation rest volumes
      else if negb ok then
        LogInfo "PVC doesn't have annotation, adding to list"
                [("pvc", pvcName item)];;
        rangeItems annotation rest (volumes ++ [tmpVol item])
      else
        let '(anno, _) := ParseBool tmpAnnotation in
        if negb anno then
          LogInfo "PVC skipped due to annotation"
                  [("pvc", pvcName item); ("annotation", tmpAnnotation)];;
          rangeItems annotation rest volumes
        else
          LogInfo "Adding to list" [("pvc", pvcName item)];;
          rangeItems annotation rest (volumes ++ [tmpVol item])
  end.

Definition listAndFilterPVCs (annotation : string)
    : Eff (list Volume * option error) :=
  let volumes := [] in
  LogInfo "Listing all PVCs" [("annotation", annotation)];;
  '(items, err) ← fetchPVCs;
  match err with
  | Some err => mret (volumes, Some err)
  | None =>
      volumes ← rangeItems annotation items volumes;
      mret (volumes, None)
  end.

Definition cleanupOldBackups (b : BackupExecutor) (name : NamespacedName)
    : Eff unit :=
  emit (EvCleanupOldResources "BackupList" name (ObjBackup <$> backup b)).

Definition startBackup (b : BackupExecutor) (backupJob : Job)
    : Eff (option error) :=
  '(ready, err) ← StartPreBackup;
  match err with
  | Some err => mret (Some err)
  | None =>
      waiting ← (if negb ready then mret true
                 else bk ← lift (deref (backup b));
                      mret (IsWaitingForPreBackup (backupStatus bk)));
      if (waiting : bool) then mret None
      else
        '(volumes, err) ← listAndFilterPVCs (BackupAnnotation cfg);
        match err with
        | Some err =>
            SetConditionFalseWithMessage ConditionReady ReasonRetrievalFailed
              (Error err) [];;
            mret (Some err)
        | None =>
            backupJob ← lift (updContainer0 (setEnv (envVars W (backup b))) backupJob);
            bk ← lift (deref (backup b));
            backupJob ← lift (updContainer0 (appendEnvFrom W bk) backupJob);
            let backupJob := setJobVolumes volumes backupJob in
            let backupJob := setJobServiceAccountName (ServiceAccount cfg) backupJob in
            backupJob ← lift (updContainer0 (setVolumeMounts (volumeMounts W volumes)) backupJob);
            backupJob ← lift (updContainer0 (setArgs (buildTagArgs W (backupTags bk))) backupJob);
            CreateObjectIfNotExisting backupJob
        end
  end.

(** [Execute]: the executor after the call (its [backup] field is assigned)
    and the error returned. *)
Definition Execute (b : BackupExecutor) : Eff (BackupExecutor * option error) :=
  match Obj (Generic b) with
  | ObjBackup backupObject =>
      let b := {| Generic := Generic b; backup := Some backupObject |} in
      let status := backupStatus backupObject in
      if HasFailed status || HasSucceeded status then
        let name := jobNamespacedName W (Generic b) in
        StopPreBackupDeployments;;
        cleanupOldBackups b name;;
        mret (b, None)
      else if HasStarted status then
        mret (b, None)
      else
        err ← createServiceAccountAndBinding;
        match err with
        | Some err => mret (b, Some err)
        | None =>
            let '(genericJob, err) := generateGenericJob W (Obj (Generic b)) (Generic b) in
            match err with
            | Some err => mret (b, Some err)
            | None =>
                err ← startBackup b genericJob;
                mret (b, err)
            end
        end
  | obj =>
      mret (b, Some (errorString ("object is not a backup: " +:+ fmtV W obj)))
  end.

End Executor.

End backupcontroller.

(** ** Package [checkcontroller] *)

Module checkcontroller.

(** [MutateFn] of controller-runtime: the closure an upsert applies to the
    object it fetched or is about to create. *)
Definition MutateFn : Type := Job → outcome (Job * option error).

(** The code the check executor calls that is not in its file. *)
Record Collaborators : Type := {
  (** the label key [job.K8upExclusive] *)
  K8upExclusive : string;
  (** [job.MutateBatchJob]: the job it leaves, and its error *)
  MutateBatchJob : Job → Check → Config → Job * option error;
  (** value of [setupEnvVars]: the converter, the defaults and their merge
      are in the executor package *)
  envVars : Check → list EnvVar;
  (** [CheckSpec.AppendEnvFromToContainer] *)
  appendEnvFrom : Check → Container → Container;
  (** [controllerruntime.CreateOrUpdate]: the object it leaves in the
      caller's pointer, and its error *)
  createOrUpdate : Job → MutateFn → outcome (Job * option error)
}.

(** Modelled from the spec: [k8upv1.CheckType] is declared in the API
    package; the spec names the workload of a check
    [check-<resource-name>], so its [String()] is "check". *)
Definition CheckType : string := "check".

(** Modelled from the spec: [utils.ZeroLen] is in the utils package; the
    spec's "declares zero extra volumes" is a nil pointer or a pointer to an
    empty slice. *)
Definition ZeroLen {A : Type} (v : option (list A)) : bool :=
  match v with
  | None | Some [] => true
  | Some (_ :: _) => false
  end.

Record CheckExecutor : Type := {
  Generic : Config;
  check : Check
}.

(** [NewCheckExecutor]: the type assertion of [config.Obj] to a pointer to
    [k8upv1.Check] has no comma-ok form, it panics on any other dynamic type. *)
Definition NewCheckExecutor (config : Config) : outcome CheckExecutor :=
  match Obj config with
  | ObjCheck c => Done {| Generic := config; check := c |}
  | _ => Panicked "interface conversion: k8upv1.JobObject is not k8upv1.Check"
  end.

Definition GetConcurrencyLimit (cfg : Configuration) (c : CheckExecutor) : Z :=
  GlobalConcurrentCheckJobsLimit cfg.

Definition Exclusive (c : CheckExecutor) : bool := true.

Section Executor.

Variable cfg : Configuration.
Variable W : Collaborators.

Definition SetConditionFalseWithMessage (c : ConditionType)
    (r : ConditionReason) (format : string) (args : list string) : Eff unit :=
  emit (EvSetConditionFalseWithMessage c r format args).

Definition SetStarted (format : string) (args : list string) : Eff unit :=
  emit (EvSetStarted format args).

Definition CreateOrUpdate (j : Job) (f : MutateFn) : Eff (Job * option error) :=
  mkEff [EvCreateOrUpdate j] (createOrUpdate W j f).

Definition jobName (c : CheckExecutor) : string :=
  CheckType +:+ "-" +:+ checkName (check c).

Definition appendOptionsArgs (c : CheckExecutor) : list string :=
  let args := [] in
  match checkBackend (check c) ≫= beOptions with
  | None => args
  | Some options =>
      let args :=
        if negb (String.eqb (CACert options) "")
        then args ++ ["-caCert"; CACert options]
        else args in
      let args :=
        if negb (String.eqb (ClientCert options) "")
           && negb (String.eqb (ClientKey options) "")
        then args ++ ["-clientCert"; ClientCert options;
                      "-clientKey"; ClientKey options]
        else args in
      args
  end.

Definition setupArgs (c : CheckExecutor) : list string * option error :=
  let args := ["-varDir"; PodVarDir cfg; "-check"] in
  let args := args ++ appendOptionsArgs c in
  (args, None).

Definition ku8pVolume : Volume :=
  {| volName := _dataDirName;
     volSource :=
       {| vsPersistentVolumeClaim := None; vsSecret := None;
          vsConfigMap := None; vsEmptyDir := Some {| Medium := "" |} |} |}.

(** The [for _, v := range *c.check.Spec.Volumes] loop of
    [attachMoreVolumes]. *)
Fixpoint rangeVolumes (vs : list RunnableVolumeSpec) (moreVolumes : list Volume)
    : list Volume :=
  match vs with
  | [] => moreVolumes
  | vol :: rest =>
      match rvPersistentVolumeClaim vol, rvSecret vol, rvConfigMap vol with
      | Some pvc, _, _ =>
          rangeVolumes rest
            (moreVolumes ++
             [{| volName := rvName vol;
                 volSource :=
                   {| vsPersistentVolumeClaim := Some pvc; vsSecret := None;
                      vsConfigMap := None; vsEmptyDir := None |} |}])
      | None, Some sec, _ =>
          rangeVolumes rest
            (moreVolumes ++
             [{| volName := rvName vol;
                 volSource :=
                   {| vsPersistentVolumeClaim := None; vsSecret := Some sec;
                      vsConfigMap := None; vsEmptyDir := None |} |}])
      | None, None, Some cm =>
          rangeVolumes rest
            (moreVolumes ++
             [{| volName := rvName vol;
                 volSource :=
                   {| vsPersistentVolumeClaim := None; vsSecret := None;
                      vsConfigMap := Some cm; vsEmptyDir := None |} |}])
      | None, None, None => rangeVolumes rest moreVolumes
      end
  end.

Definition attachMoreVolumes (c : CheckExecutor) : list Volume :=
  if ZeroLen (checkVolumes (check c)) then [ku8pVolume]
  else
    let moreVolumes := [] in
    let moreVolumes := moreVolumes ++ [ku8pVolume] in
    (* the pointer is not nil here: [ZeroLen] answered false *)
    rangeVolumes (default [] (checkVolumes (check c))) moreVolumes.

Definition attachMoreVolumeMounts (c : CheckExecutor) : list VolumeMount :=
  let volumeMount :=
    match checkBackend (check c) with
    | Some be =>
        if negb (ZeroLen (beVolumeMounts be))
        then default [] (beVolumeMounts be)
        else []
    | None => []
    end in
  let ku8pVolumeMount :=
    {| vmName := _dataDirName; vmMountPath := PodVarDir cfg;
       vmReadOnly := false |} in
  volumeMount ++ [ku8pVolumeMount].

(** The closure handed to [CreateOrUpdate] by [Execute]. *)
Definition mutate (c : CheckExecutor) : MutateFn := λ batchJob,
  let '(batchJob, mutateErr) := MutateBatchJob W batchJob (check c) (Generic c) in
  match mutateErr with
  | Some mutateErr => mret (batchJob, Some mutateErr)
  | None =>
      batchJob ← updContainer0 (setEnv (envVars W (check c))) batchJob;
      batchJob ← updContainer0 (appendEnvFrom W (check c)) batchJob;
      batchJob ← updContainer0 (setVolumeMounts (attachMoreVolumeMounts c)) batchJob;
      let batchJob := setJobVolumes (attachMoreVolumes c) batchJob in
      batchJob ← setJobLabel (K8upExclusive W) "true" batchJob;
      let '(args, argsErr) := setupArgs c in
      batchJob ← updContainer0 (setArgs args) batchJob;
      mret (batchJob, argsErr)
  end.

Definition Execute (c : CheckExecutor) : Eff (option error) :=
  let batchJob := zeroJob in
  let batchJob := setJobName (jobName c) (checkNamespace (check c)) batchJob in
  '(batchJob, err) ← CreateOrUpdate batchJob (mutate c);
  match err with
  | Some err =>
      SetConditionFalseWithMessage ConditionReady ReasonCreationFailed
        "could not create job: %v" [Error err];;
      mret (Some err)
  | None =>
      SetStarted "the job '%v/%v' was created"
        [jobNamespace batchJob; jobName_ batchJob];;
      mret None
  end.

End Executor.

End checkcontroller.

(** ** Vocabulary of the properties *)

(** The claim carries the access mode [ReadWriteMany]. *)
Definition hasRWX (W : backupcontroller.Collaborators)
    (item : PersistentVolumeClaim) : bool :=
  backupcontroller.containsAccessMode W (pvcAccessModes item) "ReadWriteMany".

(** The value parses as the boolean true. *)
Definition parsesTrue (v : string) : bool :=
  match ParseBool v with
  | (true, None) => true
  | _ => false
  end.

(** The value does not parse as a boolean. *)
Definition unparsable (v : string) : Prop :=
  ∃ e, snd (ParseBool v) = Some e.

(** The eligibility rule as the specification words it: read-write-many
    with no annotation, or an annotation that parses to true. *)
Definition eligible (W : backupcontroller.Collaborators) (annotation : string)
    (item : PersistentVolumeClaim) : bool :=
  (hasRWX W item && bool_decide (pvcAnnotations item !! annotation = None))
  || from_option parsesTrue false (pvcAnnotations item !! annotation).

(** The line the discovery loop logs for a claim. *)
Definition itemLog (W : backupcontroller.Collaborators) (annotation : string)
    (item : PersistentVolumeClaim) : Event :=
  match pvcAnnotations item !! annotation with
  | None =>
      if hasRWX W item
      then EvLogInfo "PVC doesn't have annotation, adding to list"
             [("pvc", pvcName item)]
      else EvLogInfo "PVC isn't RWX" [("pvc", pvcName item)]
  | Some v =>
      if parsesTrue v
      then EvLogInfo "Adding to list" [("pvc", pvcName item)]
      else EvLogInfo "PVC skipped due to annotation"
             [("pvc", pvcName item); ("annotation", v)]
  end.

(** A volume that refers to the claim of that name, under that name. *)
Definition refersTo (item : PersistentVolumeClaim) (v : Volume) : Prop :=
  volName v = pvcName item ∧
  ∃ src, vsPersistentVolumeClaim (volSource v) = Some src ∧
         ClaimName src = pvcName item.

(** How many volumes of the list carry this name. *)
Definition countNamed (n : string) (vs : list Volume) : nat :=
  length (List.filter (λ v, String.eqb (volName v) n) vs).

(** The jobs a trace asked the cluster to create. *)
Definition createdJobs (t : list Event) : list Job :=
  omap (λ e, match e with
             | EvCreateObjectIfNotExisting j => Some j
             | _ => None
             end) t.

(** The trace holds no request to create a workload. *)
Definition noWorkloadCreation (t : list Event) : Prop :=
  List.filter isWorkloadCreation t = [].

(** A TLS path of a check, empty when the backend or its options are
    absent. *)
Definition tlsPath (f : BackendOpts → string) (c : Check) : string :=
  from_option f "" (checkBackend c ≫= beOptions).

(** The reconciler's use of the check executor: build it from the
    configuration, then run it. *)
Definition reconcileCheck (cfg : Configuration)
    (W : checkcontroller.Collaborators) (config : Config)
    : Eff (option error) :=
  c ← lift (checkcontroller.NewCheckExecutor config);
  checkcontroller.Execute cfg W c.

(** The reconciler's use of the backup executor. *)
Definition reconcileBackup (cfg : Configuration)
    (W : backupcontroller.Collaborators) (config : Config)
    : Eff (backupcontroller.BackupExecutor * option error) :=
  backupcontroller.Execute cfg W (backupcontroller.NewBackupExecutor config).

(** The object is of the kind the executor expects. *)
Definition isBackup (o : JobObject) : bool :=
  match o with ObjBackup _ => true | _ => false end.
Definition isCheck (o : JobObject) : bool :=
  match o with ObjCheck _ => true | _ => false end.

(** ** Sample inputs *)

Module Samples.

(** Modelled from the spec: [containsAccessMode] is a helper of the backup
    package outside [executor.go]; the spec's [hasAccessMode(RWX)] is
    membership of the mode in the claim's access modes. *)
Definition containsAccessMode (s : list string) (e : string) : bool :=
  existsb (String.eqb e) s.

Definition cfg : Configuration :=
  {| PodVarDir := "/k8up"; BackupAnnotation := "k8up.io/backup";
     ServiceAccount := "pod-executor";
     GlobalConcurrentBackupJobsLimit := 1;
     GlobalConcurrentCheckJobsLimit := 1 |}.

Definition container0 : Container :=
  {| cEnv := []; cVolumeMounts := []; cArgs := [] |}.

Definition genericJob (name ns : string) : Job :=
  {| jobName_ := name; jobNamespace := ns; jobLabels := Some ∅;
     jobContainers := [container0]; jobVolumes := [];
     jobServiceAccountName := "" |}.

Definition notStarted : Status :=
  {| HasFailed := false; HasSucceeded := false; HasStarted := false;
     IsWaitingForPreBackup := false |}.
Definition started : Status :=
  {| HasFailed := false; HasSucceeded := false; HasStarted := true;
     IsWaitingForPreBackup := false |}.
Definition succeeded : Status :=
  {| HasFailed := false; HasSucceeded := true; HasStarted := true;
     IsWaitingForPreBackup := false |}.

Definition backupIn (st : Status) : Backup :=
  {| backupName := "nightly"; backupNamespace := "prod"; backupTags := [];
     backupStatus := st |}.

(** A cluster that answers every call of the backup executor without error:
    hooks [ready], the claims [items]. *)
Definition backupWorld (ready : bool) (items : list PersistentVolumeClaim)
    : backupcontroller.Collaborators :=
  {| backupcontroller.fmtV := λ _, "&{...}";
     backupcontroller.containsAccessMode := containsAccessMode;
     backupcontroller.jobNamespacedName := λ _,
       {| nnNamespace := "prod"; nnName := "backup-nightly" |};
     backupcontroller.serviceAccountAnswer := None;
     backupcontroller.generateGenericJob := λ _ _,
       (genericJob "backup-nightly" "prod", None);
     backupcontroller.preBackupAnswer := (ready, None);
     backupcontroller.claimListAnswer := (items, None);
     backupcontroller.envVars := λ _, [];
     backupcontroller.appendEnvFrom := λ _ c, c;
     backupcontroller.volumeMounts := λ vs,
       map (λ v, {| vmName := volName v;
                    vmMountPath := "/data/" +:+ volName v;
                    vmReadOnly := true |}) vs;
     backupcontroller.buildTagArgs := λ tags,
       flat_map (λ t, ["--tag"; t]) tags;
     backupcontroller.createAnswer := λ _, None |}.

Definition claim (name : string) (modes : list string)
    (annotations : list (string * string)) : PersistentVolumeClaim :=
  {| pvcName := name; pvcAnnotations := list_to_map annotations;
     pvcAccessModes := modes |}.

Definition rwxPlain : PersistentVolumeClaim :=
  claim "shared" ["ReadWriteMany"] [].
Definition rwoOptIn : PersistentVolumeClaim :=
  claim "db" ["ReadWriteOnce"] [("k8up.io/backup", "true")].
Definition rwxMaybe : PersistentVolumeClaim :=
  claim "cache" ["ReadWriteMany"] [("k8up.io/backup", "maybe")].

Definition backupExecutor (st : Status) : backupcontroller.BackupExecutor :=
  backupcontroller.NewBackupExecutor {| Obj := ObjBackup (backupIn st) |}.

Definition tlsCheck : Check :=
  {| checkName := "weekly"; checkNamespace := "prod";
     checkBackend :=
       Some {| beOptions :=
                 Some {| CACert := "/tls/ca.crt"; ClientCert := "/tls/c.crt";
                         ClientKey := "" |};
               beVolumeMounts := None |};
     checkVolumes := None |}.

(** An upsert on a cluster where the job does not exist yet: the closure
    runs on the object, then the create call answers [answer]. *)
Definition upsert (answer : option error) (j : Job)
    (f : checkcontroller.MutateFn) : outcome (Job * option error) :=
  '(j', err) ← f j;
  match err with
  | Some e => mret (j', Some e)
  | None => mret (j', answer)
  end.

Definition checkWorld (answer : option error)
    : checkcontroller.Collaborators :=
  {| checkcontroller.K8upExclusive := "k8upjob/exclusive";
     checkcontroller.MutateBatchJob := λ j _ _,
       (setJobContainers [container0]
          {| jobName_ := jobName_ j; jobNamespace := jobNamespace j;
             jobLabels := Some ∅; jobContainers := [];
             jobVolumes := []; jobServiceAccountName := "" |}, None);
     checkcontroller.envVars := λ _, [];
     checkcontroller.appendEnvFrom := λ _ c, c;
     checkcontroller.createOrUpdate := upsert answer |}.

Definition checkExecutor : checkcontroller.CheckExecutor :=
  {| checkcontroller.Generic := {| Obj := ObjCheck tlsCheck |};
     checkcontroller.check := tlsCheck |}.

End Samples.

(** ** Vocabulary of the further properties *)

(** The annotation values that opt a claim in: the strings
    [strconv.ParseBool] reads as true. *)
Definition optInValues : list string :=
  ["1"; "t"; "T"; "TRUE"; "true"; "True"].

(** Two claims the discovery loop cannot tell apart: the same name, the same
    value under the annotation key and, when that value is absent, the same
    answer on read-write-many. *)
Definition sameForDiscovery (W : backupcontroller.Collaborators)
    (annotation : string) (a b : PersistentVolumeClaim) : Prop :=
  pvcName a = pvcName b
  ∧ pvcAnnotations a !! annotation = pvcAnnotations b !! annotation
  ∧ (pvcAnnotations a !! annotation = None → hasRWX W a = hasRWX W b).

(** The volume a declared volume of a check becomes: its first source in
    the order claim, secret, config map; none when it has no source. *)
Definition declaredVolume (vol : RunnableVolumeSpec) : option Volume :=
  match rvPersistentVolumeClaim vol, rvSecret vol, rvConfigMap vol with
  | Some pvc, _, _ =>
      Some {| volName := rvName vol;
              volSource :=
                {| vsPersistentVolumeClaim := Some pvc; vsSecret := None;
                   vsConfigMap := None; vsEmptyDir := None |} |}
  | None, Some sec, _ =>
      Some {| volName := rvName vol;
              volSource :=
                {| vsPersistentVolumeClaim := None; vsSecret := Some sec;
                   vsConfigMap := None; vsEmptyDir := None |} |}
  | None, None, Some cm =>
      Some {| volName := rvName vol;
              volSource :=
                {| vsPersistentVolumeClaim := None; vsSecret := None;
                   vsConfigMap := Some cm; vsEmptyDir := None |} |}
  | None, None, None => None
  end.

(** How many of the four source pointers of a volume are set. *)
Definition isSet {A : Type} (p : option A) : nat :=
  match p with Some _ => 1 | None => 0 end.

Definition sourceCount (s : VolumeSource) : nat :=
  isSet (vsPersistentVolumeClaim s) + isSet (vsSecret s)
  + isSet (vsConfigMap s) + isSet (vsEmptyDir s).

(** The mount of the scratch volume. *)
Definition scratchMount (cfg : Configuration) : VolumeMount :=
  {| vmName := _dataDirName; vmMountPath := PodVarDir cfg;
     vmReadOnly := false |}.

(** The mounts a check's backend declares, none when the backend or its
    mounts are absent. *)
Definition backendMounts (c : Check) : list VolumeMount :=
  default [] (checkBackend c ≫= beVolumeMounts).

(** The first container of the job the backup executor asks for. *)
Definition backupContainer (W : backupcontroller.Collaborators) (bk : Backup)
    (volumes : list Volume) (c0 : Container) : Container :=
  setArgs (backupcontroller.buildTagArgs W (backupTags bk))
    (setVolumeMounts (backupcontroller.volumeMounts W volumes)
       (backupcontroller.appendEnvFrom W bk
          (setEnv (backupcontroller.envVars W (Some bk)) c0))).

(** The first container of the job the upsert closure of a check leaves. *)
Definition checkContainer (cfg : Configuration)
    (W : checkcontroller.Collaborators) (c : checkcontroller.CheckExecutor)
    (c0 : Container) : Container :=
  setArgs (fst (checkcontroller.setupArgs cfg c))
    (setVolumeMounts (checkcontroller.attachMoreVolumeMounts cfg c)
       (checkcontroller.appendEnvFrom W (checkcontroller.check c)
          (setEnv (checkcontroller.envVars W (checkcontroller.check c)) c0))).

(** A cluster whose listing of claims fails. *)
Definition failingListWorld (e : error) : backupcontroller.Collaborators :=
  {| backupcontroller.fmtV := backupcontroller.fmtV (Samples.backupWorld true []);
     backupcontroller.containsAccessMode := Samples.containsAccessMode;
     backupcontroller.jobNamespacedName :=
       backupcontroller.jobNamespacedName (Samples.backupWorld true []);
     backupcontroller.serviceAccountAnswer := None;
     backupcontroller.generateGenericJob :=
       backupcontroller.generateGenericJob (Samples.backupWorld true []);
     backupcontroller.preBackupAnswer := (true, None);
     backupcontroller.claimListAnswer := ([], Some e);
     backupcontroller.envVars := λ _, [];
     backupcontroller.appendEnvFrom := λ _ c, c;
     backupcontroller.volumeMounts :=
       backupcontroller.volumeMounts (Samples.backupWorld true []);
     backupcontroller.buildTagArgs :=
       backupcontroller.buildTagArgs (Samples.backupWorld true []);
     backupcontroller.createAnswer := λ _, None |}.

(** A cluster that answers the three first steps of a backup as given: the
    service account, the job template, the hooks. *)
Definition earlyWorld (sa : option error) (gen : Job * option error)
    (pre : bool * option error) : backupcontroller.Collaborators :=
  {| backupcontroller.fmtV := backupcontroller.fmtV (Samples.backupWorld true []);
     backupcontroller.containsAccessMode := Samples.containsAccessMode;
     backupcontroller.jobNamespacedName :=
       backupcontroller.jobNamespacedName (Samples.backupWorld true []);
     backupcontroller.serviceAccountAnswer := sa;
     backupcontroller.generateGenericJob := λ _ _, gen;
     backupcontroller.preBackupAnswer := pre;
     backupcontroller.claimListAnswer := ([Samples.rwxPlain], None);
     backupcontroller.envVars := λ _, [];
     backupcontroller.appendEnvFrom := λ _ c, c;
     backupcontroller.volumeMounts :=
       backupcontroller.volumeMounts (Samples.backupWorld true []);
     backupcontroller.buildTagArgs :=
       backupcontroller.buildTagArgs (Samples.backupWorld true []);
     backupcontroller.createAnswer := λ _, None |}.

(** A check that declares volumes: one with two sources, one without any,
    one config map. *)
Definition volumesCheck : Check :=
  {| checkName := "weekly"; checkNamespace := "prod";
     checkBackend :=
       Some {| beOptions := None;
               beVolumeMounts :=
                 Some [{| vmName := "certs"; vmMountPath := "/tls";
                          vmReadOnly := true |}] |};
     checkVolumes :=
       Some [{| rvName := "certs";
                rvPersistentVolumeClaim :=
                  Some {| ClaimName := "certs-pvc"; ReadOnly := true |};
                rvSecret := Some {| SecretName := "certs-secret" |};
                rvConfigMap := None |};
             {| rvName := "nothing"; rvPersistentVolumeClaim := None;
                rvSecret := None; rvConfigMap := None |};
             {| rvName := "conf"; rvPersistentVolumeClaim := None;
                rvSecret := None;
                rvConfigMap := Some {| ConfigMapName := "conf-map" |} |}] |}.

Definition volumesExecutor : checkcontroller.CheckExecutor :=
  {| checkcontroller.Generic := {| Obj := ObjCheck volumesCheck |};
     checkcontroller.check := volumesCheck |}.

(** A collaborator set of a check whose template step answers as given. *)
Definition templateWorld (template : Job * option error)
    : checkcontroller.Collaborators :=
  {| checkcontroller.K8upExclusive := "k8upjob/exclusive";
     checkcontroller.MutateBatchJob := λ _ _ _, template;
     checkcontroller.envVars := λ _, [];
     checkcontroller.appendEnvFrom := λ _ c, c;
     checkcontroller.createOrUpdate := Samples.upsert None |}.

(** ** The effect monad *)

Lemma Eff_bind_ret_l {A B : Type} (a : A) (f : A → Eff B) :
  (mret a ≫= f) = f a.
Proof. unfold mbind, mret, Eff_bind, Eff_ret. simpl. by destruct (f a). Qed.

Lemma Eff_bind_assoc {A B C : Type} (m : Eff A) (f : A → Eff B)
    (g : B → Eff C) :
  ((m ≫= f) ≫= g) = (m ≫= λ a, f a ≫= g).
Proof.
  unfold mbind, Eff_bind. destruct m as [t [a|w]]; simpl; [|done].
  destruct (f a) as [t' [b|w']]; simpl; [|done].
  by rewrite app_assoc.
Qed.

Lemma createdJobs_app (t1 t2 : list Event) :
  createdJobs (t1 ++ t2) = createdJobs t1 ++ createdJobs t2.
Proof. apply omap_app. Qed.

Lemma noWorkloadCreation_createdJobs (t : list Event) :
  noWorkloadCreation t → createdJobs t = [].
Proof.
  unfold noWorkloadCreation. induction t as [|e t IH]; [done|].
  simpl. destruct e; simpl; try discriminate; auto.
Qed.

(** ** Volume discovery of the backup executor *)

Section Discovery.

Import backupcontroller.

Variable W : Collaborators.
Variable annotation : string.

Lemma ParseBool_true_no_error (v : string) :
  fst (ParseBool v) = true → ParseBool v = (true, None).
Proof.
  unfold ParseBool.
  repeat match goal with |- context [if ?b then _ else _] => destruct b end;
    simpl; congruence.
Qed.

Lemma parsesTrue_fst (v : string) : parsesTrue v = fst (ParseBool v).
Proof.
  unfold parsesTrue. destruct (fst (ParseBool v)) eqn:E.
  - by rewrite (ParseBool_true_no_error v E).
  - destruct (ParseBool v) as [[] ?]; simpl in *; congruence.
Qed.

Lemma unparsable_not_true (v : string) : unparsable v → parsesTrue v = false.
Proof.
  intros [e He]. unfold parsesTrue.
  destruct (ParseBool v) as [[] [?|]]; simpl in *; congruence.
Qed.

(** The loop in closed form: one log line per claim, one volume per eligible
    claim, appended in the order of the claims; it never panics. *)
Lemma rangeItems_eq items volumes :
  rangeItems W annotation items volumes =
  mkEff (map (itemLog W annotation) items)
        (Done (volumes ++
               map tmpVol (List.filter (eligible W annotation) items))).
Proof.
  revert volumes. induction items as [|item rest IH]; intros volumes.
  - simpl. by rewrite app_nil_r.
  - simpl. unfold lookupOk, itemLog, eligible, hasRWX.
    destruct (pvcAnnotations item !! annotation) as [v|] eqn:Hv; simpl.
    + rewrite parsesTrue_fst. destruct (ParseBool v) as [anno perr]. simpl.
      destruct (containsAccessMode W _ _), anno; simpl; rewrite IH;
        unfold mbind, Eff_bind; simpl; by rewrite <- ?app_assoc.
    + destruct (containsAccessMode W _ _); simpl; rewrite IH;
        unfold mbind, Eff_bind; simpl; by rewrite <- ?app_assoc.
Qed.

Lemma listAndFilterPVCs_eq :
  listAndFilterPVCs W annotation =
  mkEff (EvLogInfo "Listing all PVCs" [("annotation", annotation)]
         :: EvFetchPVCs
         :: match snd (claimListAnswer W) with
            | Some _ => []
            | None => map (itemLog W annotation) (fst (claimListAnswer W))
            end)
        (Done match snd (claimListAnswer W) with
              | Some err => ([], Some err)
              | None =>
                  (map tmpVol (List.filter (eligible W annotation)
                                 (fst (claimListAnswer W))), None)
              end).
Proof.
  unfold listAndFilterPVCs, fetchPVCs, call.
  destruct (claimListAnswer W) as [items [err|]];
    unfold mbind, Eff_bind; cbn [trace result LogInfo emit fst snd];
    [done|].
  rewrite rangeItems_eq. cbn [trace result mret Eff_ret app].
  by rewrite app_nil_r.
Qed.

End Discovery.

(** ** Names of claims and of their volumes *)

Section Names.

Import backupcontroller.

Lemma tmpVol_refersTo (item : PersistentVolumeClaim) :
  refersTo item (tmpVol item).
Proof. split; [done|]. eexists. split; [reflexivity|done]. Qed.

Lemma Forall2_tmpVol (l : list PersistentVolumeClaim) :
  Forall2 refersTo l (map tmpVol l).
Proof.
  induction l as [|item l IH]; simpl; constructor; auto using tmpVol_refersTo.
Qed.

Lemma countNamed_tmpVol (n : string) (l : list PersistentVolumeClaim) :
  countNamed n (map tmpVol l) =
  length (List.filter (λ i, String.eqb (pvcName i) n) l).
Proof.
  unfold countNamed. induction l as [|item l IH]; [done|].
  simpl. destruct (String.eqb (pvcName item) n); simpl; congruence.
Qed.

Lemma In_map_filter {A B : Type} (f : A → B) (p : A → bool) (l : list A) x :
  In x (map f (List.filter p l)) → In x (map f l).
Proof.
  rewrite !in_map_iff. intros (a & Ha & Hin).
  apply filter_In in Hin. exists a. tauto.
Qed.

Lemma NoDup_map_filter {A B : Type} (f : A → B) (p : A → bool) (l : list A) :
  List.NoDup (map f l) → List.NoDup (map f (List.filter p l)).
Proof.
  induction l as [|a l IH]; simpl; [done|].
  intros H. inversion H as [|? ? Hnin Hnd]; subst.
  destruct (p a); simpl; auto.
  constructor; auto. intros Hin. apply Hnin. eauto using In_map_filter.
Qed.

Lemma count_unique_name (l : list PersistentVolumeClaim) item :
  List.NoDup (map pvcName l) → In item l →
  length (List.filter (λ i, String.eqb (pvcName i) (pvcName item)) l) = 1.
Proof.
  induction l as [|a l IH]; simpl; [done|].
  intros H Hin. inversion H as [|? ? Hnin Hnd]; subst.
  destruct Hin as [->|Hin].
  - rewrite String.eqb_refl. simpl. f_equal.
    apply length_zero_iff_nil.
    destruct (List.filter _ l) as [|b l'] eqn:E; [done|].
    assert (Hb : In b (List.filter
                         (λ i, String.eqb (pvcName i) (pvcName item)) l))
      by (rewrite E; by left).
    apply filter_In in Hb. destruct Hb as [Hbl Hbn].
    apply String.eqb_eq in Hbn. exfalso. apply Hnin.
    rewrite <- Hbn. by apply in_map.
  - destruct (String.eqb (pvcName a) (pvcName item)) eqn:E.
    + apply String.eqb_eq in E. exfalso. apply Hnin.
      rewrite E. by apply in_map.
    + auto.
Qed.

End Names.

(** ** Claims about volume discovery *)

(** C1. The backup executor's volume discovery returns, in order, the
    volumes of exactly the claims that are eligible: read-write-many with no
    annotation, or an annotation that parses to true.  Row by row:
    (RWX, absent) is included, (non-RWX, absent) is excluded, an annotation
    "true" includes also a non-RWX claim, an annotation "false" excludes a
    claim whatever its access modes. *)
Theorem listAndFilterPVCs_eligibility
    (W : backupcontroller.Collaborators) (annotation : string)
    (items : list PersistentVolumeClaim) :
  backupcontroller.claimListAnswer W = (items, None) →
  result (backupcontroller.listAndFilterPVCs W annotation) =
    Done (map backupcontroller.tmpVol
            (List.filter (eligible W annotation) items), None)
  ∧ (∀ item, eligible W annotation item = true ↔
       (hasRWX W item = true ∧ pvcAnnotations item !! annotation = None)
       ∨ (∃ v, pvcAnnotations item !! annotation = Some v
               ∧ ParseBool v = (true, None)))
  ∧ (∀ item, hasRWX W item = true →
       pvcAnnotations item !! annotation = None →
       eligible W annotation item = true)
  ∧ (∀ item, hasRWX W item = false →
       pvcAnnotations item !! annotation = None →
       eligible W annotation item = false)
  ∧ (∀ item, hasRWX W item = false →
       pvcAnnotations item !! annotation = Some "true" →
       eligible W annotation item = true)
  ∧ (∀ item, pvcAnnotations item !! annotation = Some "false" →
       eligible W annotation item = false).
Proof.
  intros Hfetch. split; [|split; [|repeat split]].
  - rewrite listAndFilterPVCs_eq, Hfetch. done.
  - intros item. unfold eligible.
    destruct (pvcAnnotations item !! annotation) as [v|]; simpl.
    + rewrite andb_false_r. simpl. rewrite parsesTrue_fst. split.
      * intros H. right. exists v. split; [done|].
        by apply ParseBool_true_no_error.
      * intros [[_ ?]|(v' & [= <-] & Hp)]; [done|]. by rewrite Hp.
    + rewrite andb_true_r, orb_false_r. split.
      * intros H. by left.
      * intros [[H _]|(v' & ? & _)]; done.
  - intros item Hrwx Hnone. unfold eligible. by rewrite Hrwx, Hnone.
  - intros item Hrwx Hnone. unfold eligible. by rewrite Hrwx, Hnone.
  - intros item Hrwx Hsome. unfold eligible. by rewrite Hrwx, Hsome.
  - intros item Hsome. unfold eligible. rewrite Hsome. simpl.
    by rewrite andb_false_r.
Qed.

Lemma listAndFilterPVCs_eligibility_witness :
  result (backupcontroller.listAndFilterPVCs
            (Samples.backupWorld true
               [Samples.rwxPlain; Samples.rwoOptIn; Samples.rwxMaybe])
            "k8up.io/backup") =
  Done ([backupcontroller.tmpVol Samples.rwxPlain;
         backupcontroller.tmpVol Samples.rwoOptIn], None).
Proof.
  destruct (listAndFilterPVCs_eligibility
              (Samples.backupWorld true
                 [Samples.rwxPlain; Samples.rwoOptIn; Samples.rwxMaybe])
              "k8up.io/backup"
              [Samples.rwxPlain; Samples.rwoOptIn; Samples.rwxMaybe]
              eq_refl) as [H _].
  rewrite H. vm_compute. reflexivity.
Defined.

(** C2 as the specification states it fails: a read-write-many claim whose
    annotation holds "maybe", which is no boolean, is left out of the
    result. *)
Lemma unparsable_annotation_not_included :
  pvcAnnotations Samples.rwxMaybe !! "k8up.io/backup" = Some "maybe"
  ∧ unparsable "maybe"
  ∧ result (backupcontroller.listAndFilterPVCs
              (Samples.backupWorld true [Samples.rwxMaybe])
              "k8up.io/backup") = Done ([], None).
Proof.
  split; [by vm_compute|]. split; [|by vm_compute].
  eexists. vm_compute. reflexivity.
Qed.

(** C2, amended.  A claim whose annotation is present but does not parse as
    a boolean is skipped: discovery returns what it returns without that
    claim, logs the claim as skipped due to its annotation, and reports no
    error. *)
Theorem listAndFilterPVCs_unparsable_skipped
    (W : backupcontroller.Collaborators) (annotation : string)
    (before after : list PersistentVolumeClaim)
    (item : PersistentVolumeClaim) (v : string) :
  backupcontroller.claimListAnswer W = (before ++ item :: after, None) →
  pvcAnnotations item !! annotation = Some v →
  unparsable v →
  result (backupcontroller.listAndFilterPVCs W annotation) =
    Done (map backupcontroller.tmpVol
            (List.filter (eligible W annotation) (before ++ after)), None)
  ∧ In (EvLogInfo "PVC skipped due to annotation"
          [("pvc", pvcName item); ("annotation", v)])
       (trace (backupcontroller.listAndFilterPVCs W annotation)).
Proof.
  intros Hfetch Hv Hun.
  assert (Hel : eligible W annotation item = false).
  { unfold eligible. rewrite Hv. simpl.
    by rewrite andb_false_r, (unparsable_not_true v Hun). }
  rewrite listAndFilterPVCs_eq, Hfetch. simpl. split.
  - by rewrite !List.filter_app; simpl; rewrite Hel.
  - right. right. rewrite map_app. apply in_or_app. right. left.
    unfold itemLog. by rewrite Hv, (unparsable_not_true v Hun).
Qed.

Lemma listAndFilterPVCs_unparsable_skipped_witness :
  result (backupcontroller.listAndFilterPVCs
            (Samples.backupWorld true
               [Samples.rwxPlain; Samples.rwxMaybe; Samples.rwoOptIn])
            "k8up.io/backup") =
    Done ([backupcontroller.tmpVol Samples.rwxPlain;
           backupcontroller.tmpVol Samples.rwoOptIn], None).
Proof.
  refine (proj1 (listAndFilterPVCs_unparsable_skipped
            (Samples.backupWorld true
               [Samples.rwxPlain; Samples.rwxMaybe; Samples.rwoOptIn])
            "k8up.io/backup" [Samples.rwxPlain] [Samples.rwoOptIn]
            Samples.rwxMaybe "maybe" eq_refl _ _)).
  - vm_compute. reflexivity.
  - eexists. vm_compute. reflexivity.
Defined.

(** C10. The volumes that discovery returns correspond one to one, in the
    order of the listing, to the claims the filter accepts: each carries its
    claim's name and refers to that claim.  Claim names being unique in a
    namespace, the list holds exactly one volume named after each accepted
    claim. *)
Theorem listAndFilterPVCs_one_volume_per_claim
    (W : backupcontroller.Collaborators) (annotation : string)
    (items : list PersistentVolumeClaim) :
  backupcontroller.claimListAnswer W = (items, None) →
  ∃ volumes,
    result (backupcontroller.listAndFilterPVCs W annotation) =
      Done (volumes, None)
    ∧ Forall2 refersTo (List.filter (eligible W annotation) items) volumes
    ∧ (List.NoDup (map pvcName items) →
       ∀ item, In item items → eligible W annotation item = true →
         countNamed (pvcName item) volumes = 1
         ∧ In (backupcontroller.tmpVol item) volumes).
Proof.
  intros Hfetch.
  exists (map backupcontroller.tmpVol
            (List.filter (eligible W annotation) items)).
  split; [|split].
  - rewrite listAndFilterPVCs_eq, Hfetch. done.
  - apply Forall2_tmpVol.
  - intros Hnd item Hin Hel.
    assert (Hin' : In item (List.filter (eligible W annotation) items))
      by (apply filter_In; done).
    split.
    + rewrite countNamed_tmpVol. apply count_unique_name; [|done].
      by apply NoDup_map_filter.
    + by apply in_map.
Qed.

Lemma listAndFilterPVCs_one_volume_per_claim_witness :
  ∃ volumes,
    result (backupcontroller.listAndFilterPVCs
              (Samples.backupWorld true
                 [Samples.rwxPlain; Samples.rwoOptIn; Samples.rwxMaybe])
              "k8up.io/backup") = Done (volumes, None)
    ∧ countNamed "db" volumes = 1.
Proof.
  destruct (listAndFilterPVCs_one_volume_per_claim
              (Samples.backupWorld true
                 [Samples.rwxPlain; Samples.rwoOptIn; Samples.rwxMaybe])
              "k8up.io/backup"
              [Samples.rwxPlain; Samples.rwoOptIn; Samples.rwxMaybe]
              eq_refl) as (volumes & Hres & _ & Hone).
  exists volumes. split; [exact Hres|].
  refine (proj1 (Hone _ Samples.rwoOptIn _ _)).
  - vm_compute. repeat constructor; simpl; intuition discriminate.
  - simpl. tauto.
  - vm_compute. reflexivity.
Defined.

(** ** The backup executor *)

Section BackupExecutor.

Import backupcontroller.

Variable cfg : Configuration.
Variable W : Collaborators.

Lemma createdJobs_itemLog (annotation : string)
    (items : list PersistentVolumeClaim) :
  createdJobs (map (itemLog W annotation) items) = [].
Proof.
  induction items as [|i items IH]; simpl; [done|].
  unfold itemLog at 1.
  destruct (pvcAnnotations i !! _);
    [destruct (parsesTrue _)|destruct (hasRWX _ _)]; simpl; auto.
Qed.

Lemma startBackup_created_volumes (b : BackupExecutor) (backupJob : Job) :
  ∀ j, In j (createdJobs (trace (startBackup cfg W b backupJob))) →
    jobVolumes j =
    map tmpVol (List.filter (eligible W (BackupAnnotation cfg))
                  (fst (claimListAnswer W))).
Proof.
  intros j. unfold startBackup, StartPreBackup, call.
  rewrite listAndFilterPVCs_eq.
  destruct (preBackupAnswer W) as [ready [e|]];
    unfold mbind at 1, Eff_bind at 1; cbn [trace result]; [by simpl|].
  destruct b as [config [bk|]], ready; simpl; try tauto.
  destruct (IsWaitingForPreBackup (backupStatus bk)); simpl; [tauto|].
  destruct (claimListAnswer W) as [items [e|]]; simpl; [tauto|].
  destruct backupJob as [n ns l [|c0 cs] vs sa]; simpl;
    rewrite createdJobs_app, createdJobs_itemLog; simpl; [tauto|].
  by intros [<-|[]].
Qed.

Lemma Execute_created_volumes (b : BackupExecutor) :
  ∀ j, In j (createdJobs (trace (Execute cfg W b))) →
    jobVolumes j =
    map tmpVol (List.filter (eligible W (BackupAnnotation cfg))
                  (fst (claimListAnswer W))).
Proof.
  intros j. unfold Execute.
  destruct (Obj (Generic b)) as [bk| |]; cbn -[startBackup]; try tauto.
  destruct (HasFailed _ || HasSucceeded _); cbn -[startBackup]; [tauto|].
  destruct (HasStarted _); cbn -[startBackup]; [tauto|].
  unfold createServiceAccountAndBinding, call.
  unfold mbind at 1, Eff_bind at 1. cbn [trace result].
  destruct (serviceAccountAnswer W); cbn -[startBackup]; [tauto|].
  destruct (generateGenericJob W _ _) as [genericJob [e|]];
    cbn -[startBackup]; [tauto|].
  unfold mbind, Eff_bind.
  pose proof (startBackup_created_volumes
                {| Generic := Generic b; backup := Some bk |} genericJob j)
    as H.
  destruct (startBackup _ _ _ _) as [t [r|w]]; cbn in *.
  - by rewrite app_nil_r.
  - done.
Qed.

Lemma tmpVol_not_scratch (l : list PersistentVolumeClaim) :
  countScratch (map tmpVol l) = 0.
Proof.
  unfold countScratch. induction l as [|i l IH]; [done|].
  simpl. unfold isScratch at 1. simpl.
  by rewrite andb_false_r.
Qed.

End BackupExecutor.

(** ** Claims about the backup executor *)

(** C4. A backup that has succeeded or failed: [Execute] stops the
    pre-backup deployments, runs the cleanup of old backups under the job's
    namespaced name, asks for no workload, and returns no error. *)
Theorem Execute_terminal_cleans_up
    (cfg : Configuration) (W : backupcontroller.Collaborators)
    (b : backupcontroller.BackupExecutor) (bk : Backup) :
  Obj (backupcontroller.Generic b) = ObjBackup bk →
  HasSucceeded (backupStatus bk) = true ∨ HasFailed (backupStatus bk) = true →
  backupcontroller.Execute cfg W b =
    mkEff [EvStopPreBackupDeployments;
           EvCleanupOldResources "BackupList"
             (backupcontroller.jobNamespacedName W (backupcontroller.Generic b))
             (Some (ObjBackup bk))]
          (Done ({| backupcontroller.Generic := backupcontroller.Generic b;
                    backupcontroller.backup := Some bk |}, None))
  ∧ noWorkloadCreation (trace (backupcontroller.Execute cfg W b)).
Proof.
  intros Hobj Hst.
  assert (Hterm : HasFailed (backupStatus bk) || HasSucceeded (backupStatus bk)
                  = true).
  { destruct Hst as [->| ->]; [apply orb_true_r|done]. }
  unfold backupcontroller.Execute. rewrite Hobj, Hterm. by split.
Qed.

Lemma Execute_terminal_cleans_up_witness :
  trace (backupcontroller.Execute Samples.cfg (Samples.backupWorld true [])
           (Samples.backupExecutor Samples.succeeded)) =
  [EvStopPreBackupDeployments;
   EvCleanupOldResources "BackupList"
     {| nnNamespace := "prod"; nnName := "backup-nightly" |}
     (Some (ObjBackup (Samples.backupIn Samples.succeeded)))].
Proof.
  rewrite (proj1 (Execute_terminal_cleans_up Samples.cfg
                    (Samples.backupWorld true [])
                    (Samples.backupExecutor Samples.succeeded)
                    (Samples.backupIn Samples.succeeded)
                    eq_refl (or_introl eq_refl))).
  reflexivity.
Defined.

(** C5. A backup that has started and is not finished: [Execute] calls
    nothing and returns no error; a second call on the executor it leaves
    behaves the same and leaves the same executor. *)
Theorem Execute_started_is_noop
    (cfg : Configuration) (W : backupcontroller.Collaborators)
    (b : backupcontroller.BackupExecutor) (bk : Backup) :
  Obj (backupcontroller.Generic b) = ObjBackup bk →
  HasFailed (backupStatus bk) = false →
  HasSucceeded (backupStatus bk) = false →
  HasStarted (backupStatus bk) = true →
  let b' := {| backupcontroller.Generic := backupcontroller.Generic b;
               backupcontroller.backup := Some bk |} in
  backupcontroller.Execute cfg W b = mkEff [] (Done (b', None))
  ∧ backupcontroller.Execute cfg W b' = mkEff [] (Done (b', None))
  ∧ createdJobs (trace (backupcontroller.Execute cfg W b)
                 ++ trace (backupcontroller.Execute cfg W b')) = [].
Proof.
  intros Hobj Hf Hs Hst b'.
  assert (H1 : backupcontroller.Execute cfg W b = mkEff [] (Done (b', None))).
  { unfold backupcontroller.Execute. by rewrite Hobj, Hf, Hs, Hst. }
  assert (H2 : backupcontroller.Execute cfg W b' = mkEff [] (Done (b', None))).
  { unfold backupcontroller.Execute. simpl. by rewrite Hobj, Hf, Hs, Hst. }
  rewrite H1, H2. done.
Qed.

Lemma Execute_started_is_noop_witness :
  backupcontroller.Execute Samples.cfg (Samples.backupWorld true [Samples.rwxPlain])
    (Samples.backupExecutor Samples.started) =
  mkEff [] (Done ({| backupcontroller.Generic :=
                       {| Obj := ObjBackup (Samples.backupIn Samples.started) |};
                     backupcontroller.backup :=
                       Some (Samples.backupIn Samples.started) |}, None)).
Proof.
  exact (proj1 (Execute_started_is_noop Samples.cfg
                  (Samples.backupWorld true [Samples.rwxPlain])
                  (Samples.backupExecutor Samples.started)
                  (Samples.backupIn Samples.started)
                  eq_refl eq_refl eq_refl eq_refl)).
Defined.

(** C6. A backup that has not started, whose service account and job
    template were obtained: when the pre-backup hooks answer not ready, or
    the backup is flagged as waiting for them, [Execute] returns no error
    and asks for no workload. *)
Theorem Execute_defers_until_hooks_ready
    (cfg : Configuration) (W : backupcontroller.Collaborators)
    (b : backupcontroller.BackupExecutor) (bk : Backup) (ready : bool) :
  Obj (backupcontroller.Generic b) = ObjBackup bk →
  HasFailed (backupStatus bk) = false →
  HasSucceeded (backupStatus bk) = false →
  HasStarted (backupStatus bk) = false →
  backupcontroller.serviceAccountAnswer W = None →
  snd (backupcontroller.generateGenericJob W (ObjBackup bk)
         (backupcontroller.Generic b)) = None →
  backupcontroller.preBackupAnswer W = (ready, None) →
  ready = false ∨ IsWaitingForPreBackup (backupStatus bk) = true →
  backupcontroller.Execute cfg W b =
    mkEff [EvCreateServiceAccountAndBinding; EvStartPreBackup]
          (Done ({| backupcontroller.Generic := backupcontroller.Generic b;
                    backupcontroller.backup := Some bk |}, None))
  ∧ noWorkloadCreation (trace (backupcontroller.Execute cfg W b)).
Proof.
  intros Hobj Hf Hs Hst Hsa Hgen Hpre Hgate.
  assert (E : backupcontroller.Execute cfg W b =
    mkEff [EvCreateServiceAccountAndBinding; EvStartPreBackup]
          (Done ({| backupcontroller.Generic := backupcontroller.Generic b;
                    backupcontroller.backup := Some bk |}, None))).
  { unfold backupcontroller.Execute. rewrite Hobj, Hf, Hs, Hst. simpl.
    unfold backupcontroller.createServiceAccountAndBinding, call.
    rewrite Hsa. unfold mbind at 1, Eff_bind at 1. cbn [trace result].
    rewrite Hobj.
    destruct (backupcontroller.generateGenericJob W _ _) as [genericJob ge].
    simpl in Hgen. subst ge.
    unfold backupcontroller.startBackup, backupcontroller.StartPreBackup, call.
    rewrite Hpre.
    destruct Hgate as [-> |Hw]; [done|].
    destruct ready; simpl; [|done]. by rewrite Hw. }
  rewrite E. by split.
Qed.

Lemma Execute_defers_until_hooks_ready_witness :
  backupcontroller.Execute Samples.cfg
    (Samples.backupWorld false [Samples.rwxPlain])
    (Samples.backupExecutor Samples.notStarted) =
  mkEff [EvCreateServiceAccountAndBinding; EvStartPreBackup]
        (Done ({| backupcontroller.Generic :=
                    {| Obj := ObjBackup (Samples.backupIn Samples.notStarted) |};
                  backupcontroller.backup :=
                    Some (Samples.backupIn Samples.notStarted) |}, None)).
Proof.
  exact (proj1 (Execute_defers_until_hooks_ready Samples.cfg
                  (Samples.backupWorld false [Samples.rwxPlain])
                  (Samples.backupExecutor Samples.notStarted)
                  (Samples.backupIn Samples.notStarted) false
                  eq_refl eq_refl eq_refl eq_refl eq_refl eq_refl eq_refl
                  (or_introl eq_refl))).
Defined.

(** Whatever the earlier steps answer, a closed gate lets no request for a
    workload through. *)
Lemma Execute_gate_never_creates
    (cfg : Configuration) (W : backupcontroller.Collaborators)
    (b : backupcontroller.BackupExecutor) (bk : Backup) :
  Obj (backupcontroller.Generic b) = ObjBackup bk →
  fst (backupcontroller.preBackupAnswer W) = false
  ∨ IsWaitingForPreBackup (backupStatus bk) = true →
  noWorkloadCreation (trace (backupcontroller.Execute cfg W b)).
Proof.
  intros Hobj Hgate. unfold backupcontroller.Execute. rewrite Hobj.
  destruct (HasFailed _ || HasSucceeded _); [done|].
  destruct (HasStarted _); [done|].
  unfold backupcontroller.createServiceAccountAndBinding, call.
  unfold mbind at 1, Eff_bind at 1. cbn [trace result].
  destruct (backupcontroller.serviceAccountAnswer W); [done|].
  cbn [backupcontroller.Generic]. rewrite ?Hobj.
  destruct (backupcontroller.generateGenericJob W _ _) as [genericJob [e|]];
    [done|].
  unfold backupcontroller.startBackup, backupcontroller.StartPreBackup, call.
  destruct (backupcontroller.preBackupAnswer W) as [ready [e|]]; [done|].
  simpl in Hgate.
  destruct Hgate as [-> |Hw]; [done|].
  destruct ready; simpl; [|done]. by rewrite Hw.
Qed.

(** The gate open and every collaborator answering without error, the
    workload is requested, with the discovered volumes as its volumes. *)
Lemma Execute_creates_when_ready
    (cfg : Configuration) (W : backupcontroller.Collaborators)
    (b : backupcontroller.BackupExecutor) (bk : Backup)
    (genericJob : Job) (items : list PersistentVolumeClaim) :
  Obj (backupcontroller.Generic b) = ObjBackup bk →
  HasFailed (backupStatus bk) = false →
  HasSucceeded (backupStatus bk) = false →
  HasStarted (backupStatus bk) = false →
  IsWaitingForPreBackup (backupStatus bk) = false →
  backupcontroller.serviceAccountAnswer W = None →
  backupcontroller.generateGenericJob W (ObjBackup bk)
    (backupcontroller.Generic b) = (genericJob, None) →
  jobContainers genericJob ≠ [] →
  backupcontroller.preBackupAnswer W = (true, None) →
  backupcontroller.claimListAnswer W = (items, None) →
  ∃ j, createdJobs (trace (backupcontroller.Execute cfg W b)) = [j]
       ∧ jobVolumes j =
         map backupcontroller.tmpVol
           (List.filter (eligible W (BackupAnnotation cfg)) items).
Proof.
  intros Hobj Hf Hs Hst Hw Hsa Hgen Hcs Hpre Hfetch.
  unfold backupcontroller.Execute. rewrite Hobj, Hf, Hs, Hst.
  cbn -[backupcontroller.startBackup].
  unfold backupcontroller.createServiceAccountAndBinding, call.
  rewrite Hsa. unfold mbind at 1, Eff_bind at 1. cbn [trace result].
  rewrite ?Hobj, Hgen.
  unfold backupcontroller.startBackup, backupcontroller.StartPreBackup, call.
  rewrite listAndFilterPVCs_eq, Hpre, Hfetch. simpl. rewrite Hw. simpl.
  destruct genericJob as [n ns l [|c0 cs] vs sa]; [done|]. simpl.
  rewrite !createdJobs_app, createdJobs_itemLog. simpl.
  eexists. split; reflexivity.
Qed.

(** ** The check executor *)

Section CheckExecutor.

Import checkcontroller.

Lemma countScratch_app (l1 l2 : list Volume) :
  countScratch (l1 ++ l2) = countScratch l1 + countScratch l2.
Proof. unfold countScratch. by rewrite List.filter_app, length_app. Qed.

Lemma isScratch_needs_emptyDir (v : Volume) :
  vsEmptyDir (volSource v) = None → isScratch v = false.
Proof. unfold isScratch. intros ->. apply andb_false_r. Qed.

(** The loop over the declared volumes appends no scratch volume. *)
Lemma rangeVolumes_countScratch (vs : list RunnableVolumeSpec)
    (moreVolumes : list Volume) :
  countScratch (rangeVolumes vs moreVolumes) = countScratch moreVolumes.
Proof.
  revert moreVolumes. induction vs as [|vol rest IH]; intros more; [done|].
  simpl.
  destruct (rvPersistentVolumeClaim vol), (rvSecret vol), (rvConfigMap vol);
    rewrite IH, ?countScratch_app; unfold countScratch; simpl;
    rewrite ?isScratch_needs_emptyDir by done; simpl; lia.
Qed.

Lemma attachMoreVolumes_one_scratch (c : CheckExecutor) :
  countScratch (attachMoreVolumes c) = 1.
Proof.
  unfold attachMoreVolumes. destruct (ZeroLen _); [done|].
  by rewrite rangeVolumes_countScratch.
Qed.

Lemma updContainer0_Done (f : Container → Container) (j j' : Job) :
  updContainer0 f j = Done j' →
  jobContainers j' ≠ [] ∧ jobVolumes j' = jobVolumes j
  ∧ jobLabels j' = jobLabels j ∧ jobName_ j' = jobName_ j
  ∧ jobNamespace j' = jobNamespace j.
Proof.
  unfold updContainer0. destruct (jobContainers j); [done|].
  intros [= <-]. done.
Qed.

(** The closure leaves the volumes of [attachMoreVolumes] on the job. *)
Lemma mutate_volumes (cfg : Configuration) (W : Collaborators)
    (c : CheckExecutor) (j j' : Job) :
  mutate cfg W c j = Done (j', None) →
  jobVolumes j' = attachMoreVolumes c.
Proof.
  unfold mutate.
  destruct (MutateBatchJob W j (check c) (Generic c)) as [j1 [e|]]; [done|].
  destruct j1 as [n ns [l|] [|c0 cs] vs sa]; simpl; try done.
  intros [= <-]. done.
Qed.

End CheckExecutor.

(** ** Claims about volume assembly, arguments and failures *)

(** C3 as the specification states it fails for backups: with the hooks
    ready and no claim discovered, the backup executor asks for a job whose
    volume list is empty, so it holds no scratch volume. *)
Lemma backup_job_without_scratch_volume :
  map (λ j, (jobVolumes j, countScratch (jobVolumes j)))
      (createdJobs
         (trace (backupcontroller.Execute Samples.cfg
                   (Samples.backupWorld true [])
                   (Samples.backupExecutor Samples.notStarted)))) =
  [([], 0)].
Proof. vm_compute. reflexivity. Qed.

(** C3, amended.  The volume list of a check holds exactly one scratch
    volume, the empty directory named [k8up-dir], also when the check
    declares no volume, and that list is the one the upsert closure puts on
    the job.  The volume list of a job the backup executor asks for is the
    list of discovered claim volumes and holds no scratch volume. *)
Theorem scratch_volume_of_workloads :
  (∀ c : checkcontroller.CheckExecutor,
     countScratch (checkcontroller.attachMoreVolumes c) = 1
     ∧ In checkcontroller.ku8pVolume (checkcontroller.attachMoreVolumes c))
  ∧ (∀ cfg W c j j',
       checkcontroller.mutate cfg W c j = Done (j', None) →
       countScratch (jobVolumes j') = 1)
  ∧ (∀ cfg W b j,
       In j (createdJobs (trace (backupcontroller.Execute cfg W b))) →
       jobVolumes j =
         map backupcontroller.tmpVol
           (List.filter (eligible W (BackupAnnotation cfg))
              (fst (backupcontroller.claimListAnswer W)))
       ∧ countScratch (jobVolumes j) = 0).
Proof.
  split; [|split].
  - intros c. split; [apply attachMoreVolumes_one_scratch|].
    unfold checkcontroller.attachMoreVolumes.
    destruct (checkcontroller.ZeroLen _); [by left|].
    generalize (default [] (checkVolumes (checkcontroller.check c))).
    intros vs. simpl.
    assert (H : ∀ more, In checkcontroller.ku8pVolume more →
                In checkcontroller.ku8pVolume
                   (checkcontroller.rangeVolumes vs more)).
    { induction vs as [|vol rest IH]; intros more Hin; [done|]. simpl.
      destruct (rvPersistentVolumeClaim vol), (rvSecret vol),
        (rvConfigMap vol); apply IH; try done; apply in_or_app; by left. }
    apply H. by left.
  - intros cfg W c j j' H.
    rewrite (mutate_volumes cfg W c j j' H).
    apply attachMoreVolumes_one_scratch.
  - intros cfg W b j H.
    rewrite (Execute_created_volumes cfg W b j H).
    split; [done|apply tmpVol_not_scratch].
Qed.

Lemma scratch_volume_of_workloads_witness :
  (∃ j', checkcontroller.mutate Samples.cfg (Samples.checkWorld None)
           Samples.checkExecutor zeroJob = Done (j', None)
         ∧ countScratch (jobVolumes j') = 1)
  ∧ (∃ j, createdJobs
            (trace (backupcontroller.Execute Samples.cfg
                      (Samples.backupWorld true [Samples.rwxPlain])
                      (Samples.backupExecutor Samples.notStarted))) = [j]
          ∧ countScratch (jobVolumes j) = 0).
Proof.
  destruct scratch_volume_of_workloads as (_ & Hcheck & Hbackup).
  split.
  - eexists. split; [vm_compute; reflexivity|].
    eapply (Hcheck Samples.cfg (Samples.checkWorld None)
              Samples.checkExecutor zeroJob).
    vm_compute. reflexivity.
  - eexists. split; [vm_compute; reflexivity|].
    refine (proj2 (Hbackup Samples.cfg
                     (Samples.backupWorld true [Samples.rwxPlain])
                     (Samples.backupExecutor Samples.notStarted) _ _)).
    vm_compute. by left.
Defined.

(** C7. The arguments of a check are [-varDir], the configured directory
    and [-check]; then [-caCert] and the path exactly when the CA
    certificate path is not empty; then [-clientCert], its path,
    [-clientKey] and its path exactly when both paths are not empty.  A
    check without backend or without options has empty paths.  No error is
    returned. *)
Theorem setupArgs_exact (cfg : Configuration)
    (c : checkcontroller.CheckExecutor) :
  let ca := tlsPath CACert (checkcontroller.check c) in
  let cert := tlsPath ClientCert (checkcontroller.check c) in
  let key := tlsPath ClientKey (checkcontroller.check c) in
  checkcontroller.setupArgs cfg c =
    (["-varDir"; PodVarDir cfg; "-check"]
     ++ (if decide (ca ≠ "") then ["-caCert"; ca] else [])
     ++ (if decide (cert ≠ "" ∧ key ≠ "")
         then ["-clientCert"; cert; "-clientKey"; key] else []),
     None).
Proof.
  unfold checkcontroller.setupArgs, checkcontroller.appendOptionsArgs, tlsPath.
  destruct (checkBackend (checkcontroller.check c) ≫= beOptions)
    as [[ca cert key]|]; simpl; [|done].
  repeat case_decide;
    repeat match goal with
    | |- context [String.eqb ?a ""] =>
        let E := fresh in destruct (String.eqb_spec a "") as [E|E]
    end; simpl; try done; try tauto; naive_solver.
Qed.

(** C8. When the upsert of a check's job answers with an error, [Execute]
    sets the condition Ready to false with the reason CreationFailed and the
    error's text, and returns that error; when it answers without error,
    [Execute] reports the job as started, naming its namespace and name, and
    returns no error. *)
Theorem Execute_reports_upsert
    (cfg : Configuration) (W : checkcontroller.Collaborators)
    (c : checkcontroller.CheckExecutor) (j : Job) (answer : option error) :
  let batchJob :=
    setJobName (checkcontroller.jobName c)
      (checkNamespace (checkcontroller.check c)) zeroJob in
  checkcontroller.createOrUpdate W batchJob (checkcontroller.mutate cfg W c)
    = Done (j, answer) →
  checkcontroller.Execute cfg W c =
    mkEff [EvCreateOrUpdate batchJob;
           match answer with
           | Some err =>
               EvSetConditionFalseWithMessage ConditionReady
                 ReasonCreationFailed "could not create job: %v" [Error err]
           | None =>
               EvSetStarted "the job '%v/%v' was created"
                 [jobNamespace j; jobName_ j]
           end]
          (Done answer).
Proof.
  intros batchJob H. unfold checkcontroller.Execute,
    checkcontroller.CreateOrUpdate.
  fold batchJob. rewrite H. by destruct answer.
Qed.

Lemma Execute_reports_upsert_witness :
  checkcontroller.Execute Samples.cfg
    (Samples.checkWorld (Some (errorString "jobs.batch is forbidden")))
    Samples.checkExecutor =
  mkEff [EvCreateOrUpdate
           (setJobName "check-weekly" "prod" zeroJob);
         EvSetConditionFalseWithMessage ConditionReady ReasonCreationFailed
           "could not create job: %v" ["jobs.batch is forbidden"]]
        (Done (Some (errorString "jobs.batch is forbidden"))).
Proof.
  refine (Execute_reports_upsert Samples.cfg
            (Samples.checkWorld (Some (errorString "jobs.batch is forbidden")))
            Samples.checkExecutor _
            (Some (errorString "jobs.batch is forbidden")) _).
  vm_compute. reflexivity.
Defined.

Example setupArgs_client_cert_without_key :
  checkcontroller.setupArgs Samples.cfg Samples.checkExecutor =
  (["-varDir"; "/k8up"; "-check"; "-caCert"; "/tls/ca.crt"], None).
Proof. reflexivity. Qed.

(** C9 as the specification states it fails for checks: handed a backup,
    the check executor is never run; its constructor panics on the
    unchecked type assertion, and no error is returned. *)
Lemma check_executor_panics_on_other_kind :
  isCheck (ObjBackup (Samples.backupIn Samples.notStarted)) = false
  ∧ reconcileCheck Samples.cfg (Samples.checkWorld None)
      {| Obj := ObjBackup (Samples.backupIn Samples.notStarted) |} =
    mkEff []
      (Panicked "interface conversion: k8upv1.JobObject is not k8upv1.Check").
Proof. split; reflexivity. Qed.

(** C9, amended.  Handed an object that is not a backup, the backup
    executor's [Execute] returns the error "object is not a backup" and
    calls nothing: no hook teardown, no cleanup, no workload.  The check
    executor does not test the kind in [Execute]: its constructor asserts
    it unchecked, so an object that is not a check stops the construction
    with a panic before any call is made. *)
Theorem kind_mismatch
    (cfg : Configuration) :
  (∀ W b,
     isBackup (Obj (backupcontroller.Generic b)) = false →
     backupcontroller.Execute cfg W b =
       mkEff []
         (Done (b, Some (errorString
                           ("object is not a backup: "
                            +:+ backupcontroller.fmtV W
                                  (Obj (backupcontroller.Generic b)))))))
  ∧ (∀ W config,
       isCheck (Obj config) = false →
       ∃ why, checkcontroller.NewCheckExecutor config = Panicked why
              ∧ reconcileCheck cfg W config = mkEff [] (Panicked why)).
Proof.
  split.
  - intros W b H. unfold backupcontroller.Execute.
    destruct (Obj (backupcontroller.Generic b)); [discriminate H|done|done].
  - intros W config H. unfold reconcileCheck, checkcontroller.NewCheckExecutor.
    destruct (Obj config); [|discriminate H|]; eexists; split; reflexivity.
Qed.

Lemma kind_mismatch_witness :
  result (reconcileBackup Samples.cfg (Samples.backupWorld true [])
            {| Obj := ObjCheck Samples.tlsCheck |}) =
  Done (backupcontroller.NewBackupExecutor {| Obj := ObjCheck Samples.tlsCheck |},
        Some (errorString "object is not a backup: &{...}"))
  ∧ trace (reconcileBackup Samples.cfg (Samples.backupWorld true [])
             {| Obj := ObjCheck Samples.tlsCheck |}) = [].
Proof.
  unfold reconcileBackup.
  rewrite (proj1 (kind_mismatch Samples.cfg) (Samples.backupWorld true [])
             (backupcontroller.NewBackupExecutor
                {| Obj := ObjCheck Samples.tlsCheck |}) eq_refl).
  split; reflexivity.
Defined.

(** ** Further properties of volume discovery *)

Lemma parsesTrue_optInValues (v : string) :
  parsesTrue v = bool_decide (v ∈ optInValues).
Proof.
  destruct (decide (v ∈ optInValues)) as [Hin|Hnin].
  - rewrite bool_decide_eq_true_2 by done.
    unfold optInValues in Hin.
    repeat (apply elem_of_cons in Hin as [->|Hin]; [reflexivity|]).
    by apply elem_of_nil in Hin.
  - rewrite bool_decide_eq_false_2 by done.
    unfold parsesTrue, ParseBool.
    assert (Hne : ∀ s, s ∈ optInValues → String.eqb v s = false).
    { intros s Hs. apply String.eqb_neq. by intros ->. }
    rewrite !Hne by (unfold optInValues; set_solver). simpl.
    by destruct (_ || _).
Qed.

Lemma eligible_same (W : backupcontroller.Collaborators) (annotation : string)
    (a b : PersistentVolumeClaim) :
  sameForDiscovery W annotation a b →
  eligible W annotation a = eligible W annotation b
  ∧ itemLog W annotation a = itemLog W annotation b
  ∧ backupcontroller.tmpVol a = backupcontroller.tmpVol b.
Proof.
  intros (Hn & Hl & Hr). unfold eligible, itemLog, backupcontroller.tmpVol.
  rewrite <- Hl, <- Hn.
  destruct (pvcAnnotations a !! annotation); simpl.
  - by rewrite !andb_false_r.
  - by rewrite (Hr eq_refl).
Qed.

(** X1. When the listing of claims fails, discovery returns the empty list
    and that error, having logged its start and looked at no claim. *)
Theorem listAndFilterPVCs_fetch_error
    (W : backupcontroller.Collaborators) (annotation : string)
    (items : list PersistentVolumeClaim) (err : error) :
  backupcontroller.claimListAnswer W = (items, Some err) →
  backupcontroller.listAndFilterPVCs W annotation =
    mkEff [EvLogInfo "Listing all PVCs" [("annotation", annotation)];
           EvFetchPVCs]
          (Done ([], Some err)).
Proof. intros H. by rewrite listAndFilterPVCs_eq, H. Qed.

Lemma listAndFilterPVCs_fetch_error_witness :
  result (backupcontroller.listAndFilterPVCs
            (failingListWorld (errorString "forbidden")) "k8up.io/backup") =
  Done ([], Some (errorString "forbidden")).
Proof.
  rewrite (listAndFilterPVCs_fetch_error
             (failingListWorld (errorString "forbidden")) "k8up.io/backup"
             [] (errorString "forbidden") eq_refl).
  reflexivity.
Defined.

(** X2. A successful discovery logs one line per listed claim after its two
    opening calls, returns at most one volume per claim, and the names of
    the volumes are names of listed claims, in the order of the listing. *)
Theorem listAndFilterPVCs_logs_and_names
    (W : backupcontroller.Collaborators) (annotation : string)
    (items : list PersistentVolumeClaim) :
  backupcontroller.claimListAnswer W = (items, None) →
  ∃ volumes,
    result (backupcontroller.listAndFilterPVCs W annotation) =
      Done (volumes, None)
    ∧ length (trace (backupcontroller.listAndFilterPVCs W annotation)) =
      2 + length items
    ∧ (length volumes ≤ length items)%nat
    ∧ sublist (map volName volumes) (map pvcName items).
Proof.
  intros H. rewrite listAndFilterPVCs_eq, H. simpl.
  eexists. split; [reflexivity|]. rewrite !length_map.
  split; [done|]. split.
  - apply List.filter_length_le.
  - clear H. induction items as [|i items IH]; simpl; [done|].
    destruct (eligible W annotation i); simpl.
    + by apply sublist_skip.
    + by apply sublist_cons.
Qed.

Lemma listAndFilterPVCs_logs_and_names_witness :
  ∃ volumes,
    result (backupcontroller.listAndFilterPVCs
              (Samples.backupWorld true
                 [Samples.rwxPlain; Samples.rwxMaybe; Samples.rwoOptIn])
              "k8up.io/backup") = Done (volumes, None)
    ∧ (length volumes ≤ 3)%nat.
Proof.
  destruct (listAndFilterPVCs_logs_and_names
              (Samples.backupWorld true
                 [Samples.rwxPlain; Samples.rwxMaybe; Samples.rwoOptIn])
              "k8up.io/backup"
              [Samples.rwxPlain; Samples.rwxMaybe; Samples.rwoOptIn]
              eq_refl) as (volumes & Hres & _ & Hlen & _).
  exists volumes. split; [exact Hres|exact Hlen].
Defined.

(** X3. The discovery loop reads of a claim only its name, the value under
    the annotation key and, when there is none, whether it is
    read-write-many: on two listings that agree on these, claim by claim, it
    logs the same lines and returns the same volumes.  In particular the
    access modes of an annotated claim and its other annotations do not
    matter. *)
Theorem rangeItems_reads_only
    (W : backupcontroller.Collaborators) (annotation : string)
    (items1 items2 : list PersistentVolumeClaim) (volumes : list Volume) :
  Forall2 (sameForDiscovery W annotation) items1 items2 →
  backupcontroller.rangeItems W annotation items1 volumes =
  backupcontroller.rangeItems W annotation items2 volumes.
Proof.
  intros H. rewrite !rangeItems_eq. f_equal; [|do 2 f_equal].
  - induction H as [|a b l1 l2 Hab _ IH]; simpl; [done|].
    destruct (eligible_same W annotation a b Hab) as (_ & -> & _).
    by rewrite IH.
  - induction H as [|a b l1 l2 Hab _ IH]; simpl; [done|].
    destruct (eligible_same W annotation a b Hab) as (-> & _ & Hv).
    destruct (eligible W annotation b); simpl; [|done].
    by rewrite Hv, IH.
Qed.

Lemma rangeItems_reads_only_witness :
  backupcontroller.rangeItems (Samples.backupWorld true []) "k8up.io/backup"
    [Samples.claim "db" ["ReadWriteMany"]
       [("k8up.io/backup", "true"); ("team", "storage")]] [] =
  backupcontroller.rangeItems (Samples.backupWorld true []) "k8up.io/backup"
    [Samples.rwoOptIn] [].
Proof.
  apply rangeItems_reads_only.
  constructor; [|constructor].
  split; [reflexivity|]. split; [vm_compute; reflexivity|].
  vm_compute. discriminate.
Defined.

(** X4. An annotated claim is kept exactly when the value of its annotation
    is one of 1, t, T, TRUE, true, True, whatever its access modes; the
    claims around it are handled as without it. *)
Theorem listAndFilterPVCs_opt_in_values
    (W : backupcontroller.Collaborators) (annotation : string)
    (before after : list PersistentVolumeClaim)
    (item : PersistentVolumeClaim) (v : string) :
  backupcontroller.claimListAnswer W = (before ++ item :: after, None) →
  pvcAnnotations item !! annotation = Some v →
  result (backupcontroller.listAndFilterPVCs W annotation) =
    Done (map backupcontroller.tmpVol
            (List.filter (eligible W annotation) before)
          ++ (if bool_decide (v ∈ optInValues)
              then [backupcontroller.tmpVol item] else [])
          ++ map backupcontroller.tmpVol
               (List.filter (eligible W annotation) after), None).
Proof.
  intros H Hv. rewrite listAndFilterPVCs_eq, H. simpl.
  rewrite List.filter_app, map_app. simpl.
  assert (He : eligible W annotation item = bool_decide (v ∈ optInValues)).
  { unfold eligible. rewrite Hv. simpl.
    by rewrite andb_false_r, parsesTrue_optInValues. }
  rewrite He. by destruct (bool_decide _).
Qed.

Lemma listAndFilterPVCs_opt_in_values_witness :
  result (backupcontroller.listAndFilterPVCs
            (Samples.backupWorld true
               [Samples.rwxPlain;
                Samples.claim "logs" ["ReadWriteOnce"]
                  [("k8up.io/backup", "yes")]])
            "k8up.io/backup") =
  Done ([backupcontroller.tmpVol Samples.rwxPlain], None).
Proof.
  rewrite (listAndFilterPVCs_opt_in_values
             (Samples.backupWorld true
                [Samples.rwxPlain;
                 Samples.claim "logs" ["ReadWriteOnce"]
                   [("k8up.io/backup", "yes")]])
             "k8up.io/backup" [Samples.rwxPlain] []
             (Samples.claim "logs" ["ReadWriteOnce"]
                [("k8up.io/backup", "yes")])
             "yes" eq_refl).
  - vm_compute. reflexivity.
  - vm_compute. reflexivity.
Defined.

(** ** Further properties of the backup executor *)

(** Entering the branch of [Execute] for a backup that is neither finished
    nor started. *)
Ltac enter_not_started Hobj Hf Hs Hst :=
  unfold backupcontroller.Execute; rewrite Hobj, Hf, Hs, Hst;
  cbn -[backupcontroller.startBackup];
  unfold backupcontroller.createServiceAccountAndBinding, call.

Lemma itemLog_is_log (W : backupcontroller.Collaborators)
    (annotation : string) (item : PersistentVolumeClaim) :
  ∃ msg kv, itemLog W annotation item = EvLogInfo msg kv.
Proof.
  unfold itemLog.
  destruct (pvcAnnotations item !! annotation);
    [destruct (parsesTrue _)|destruct (hasRWX _ _)]; eauto.
Qed.

Lemma stop_not_in_itemLog (W : backupcontroller.Collaborators)
    (annotation : string) (items : list PersistentVolumeClaim) :
  ¬ In EvStopPreBackupDeployments (map (itemLog W annotation) items).
Proof.
  intros H. apply in_map_iff in H as (item & Hitem & _).
  destruct (itemLog_is_log W annotation item) as (msg & kv & E).
  congruence.
Qed.

(** What [startBackup] can leave in its trace: at most one request for a
    workload, and no teardown of the hooks. *)
Lemma startBackup_trace_shape (cfg : Configuration)
    (W : backupcontroller.Collaborators)
    (b : backupcontroller.BackupExecutor) (backupJob : Job) :
  (length (createdJobs
             (trace (backupcontroller.startBackup cfg W b backupJob))) ≤ 1)%nat
  ∧ ¬ In EvStopPreBackupDeployments
        (trace (backupcontroller.startBackup cfg W b backupJob)).
Proof.
  unfold backupcontroller.startBackup, backupcontroller.StartPreBackup, call.
  rewrite listAndFilterPVCs_eq.
  destruct (backupcontroller.preBackupAnswer W) as [ready [e|]];
    unfold mbind at 1, Eff_bind at 1; cbn [trace result].
  { simpl. split; [lia|]. intros [H|[]]. discriminate H. }
  destruct b as [config [bk|]], ready; simpl;
    try (split; [lia|]; intros [H|[]]; discriminate H).
  destruct (IsWaitingForPreBackup (backupStatus bk)); simpl.
  { split; [lia|]. intros [H|[]]. discriminate H. }
  destruct (backupcontroller.claimListAnswer W) as [items [e|]]; simpl.
  { split; [lia|]. intros [H|[H|[H|[H|[]]]]]; discriminate H. }
  destruct backupJob as [n ns l [|c0 cs] vs sa]; simpl;
    rewrite createdJobs_app, createdJobs_itemLog; simpl; (split; [lia|]);
    rewrite ?app_nil_r; intros [H|[H|[H|H]]]; try discriminate H.
  - by apply stop_not_in_itemLog in H.
  - apply in_app_or in H as [H|[H|[]]]; [|discriminate H].
    by apply stop_not_in_itemLog in H.
Qed.

(** X5. A backup that is neither finished nor started, when the service
    account and its binding cannot be ensured: [Execute] returns that error
    after this one call; the hooks are not started, no claim is listed, no
    workload is asked for. *)
Theorem Execute_service_account_error
    (cfg : Configuration) (W : backupcontroller.Collaborators)
    (b : backupcontroller.BackupExecutor) (bk : Backup) (err : error) :
  Obj (backupcontroller.Generic b) = ObjBackup bk →
  HasFailed (backupStatus bk) = false →
  HasSucceeded (backupStatus bk) = false →
  HasStarted (backupStatus bk) = false →
  backupcontroller.serviceAccountAnswer W = Some err →
  backupcontroller.Execute cfg W b =
    mkEff [EvCreateServiceAccountAndBinding]
          (Done ({| backupcontroller.Generic := backupcontroller.Generic b;
                    backupcontroller.backup := Some bk |}, Some err)).
Proof.
  intros Hobj Hf Hs Hst Hsa. enter_not_started Hobj Hf Hs Hst.
  by rewrite Hsa.
Qed.

Lemma Execute_service_account_error_witness :
  backupcontroller.Execute Samples.cfg
    (earlyWorld (Some (errorString "no rbac")) (zeroJob, None) (true, None))
    (Samples.backupExecutor Samples.notStarted) =
  mkEff [EvCreateServiceAccountAndBinding]
    (Done ({| backupcontroller.Generic :=
                {| Obj := ObjBackup (Samples.backupIn Samples.notStarted) |};
              backupcontroller.backup :=
                Some (Samples.backupIn Samples.notStarted) |},
           Some (errorString "no rbac"))).
Proof.
  exact (Execute_service_account_error Samples.cfg
           (earlyWorld (Some (errorString "no rbac")) (zeroJob, None)
              (true, None))
           (Samples.backupExecutor Samples.notStarted)
           (Samples.backupIn Samples.notStarted) (errorString "no rbac")
           eq_refl eq_refl eq_refl eq_refl eq_refl).
Defined.

(** X6. The service account ensured, when the job template cannot be
    generated: [Execute] returns that error; the hooks are not started and
    no workload is asked for. *)
Theorem Execute_job_template_error
    (cfg : Configuration) (W : backupcontroller.Collaborators)
    (b : backupcontroller.BackupExecutor) (bk : Backup)
    (genericJob : Job) (err : error) :
  Obj (backupcontroller.Generic b) = ObjBackup bk →
  HasFailed (backupStatus bk) = false →
  HasSucceeded (backupStatus bk) = false →
  HasStarted (backupStatus bk) = false →
  backupcontroller.serviceAccountAnswer W = None →
  backupcontroller.generateGenericJob W (ObjBackup bk)
    (backupcontroller.Generic b) = (genericJob, Some err) →
  backupcontroller.Execute cfg W b =
    mkEff [EvCreateServiceAccountAndBinding]
          (Done ({| backupcontroller.Generic := backupcontroller.Generic b;
                    backupcontroller.backup := Some bk |}, Some err)).
Proof.
  intros Hobj Hf Hs Hst Hsa Hgen. enter_not_started Hobj Hf Hs Hst.
  rewrite Hsa. unfold mbind at 1, Eff_bind at 1. cbn [trace result].
  by rewrite ?Hobj, Hgen.
Qed.

Lemma Execute_job_template_error_witness :
  backupcontroller.Execute Samples.cfg
    (earlyWorld None (zeroJob, Some (errorString "no scheme")) (true, None))
    (Samples.backupExecutor Samples.notStarted) =
  mkEff [EvCreateServiceAccountAndBinding]
    (Done ({| backupcontroller.Generic :=
                {| Obj := ObjBackup (Samples.backupIn Samples.notStarted) |};
              backupcontroller.backup :=
                Some (Samples.backupIn Samples.notStarted) |},
           Some (errorString "no scheme"))).
Proof.
  exact (Execute_job_template_error Samples.cfg
           (earlyWorld None (zeroJob, Some (errorString "no scheme"))
              (true, None))
           (Samples.backupExecutor Samples.notStarted)
           (Samples.backupIn Samples.notStarted) zeroJob
           (errorString "no scheme")
           eq_refl eq_refl eq_refl eq_refl eq_refl eq_refl).
Defined.

(** X7. When starting the pre-backup hooks fails, [Execute] returns that
    error whatever readiness came with it: no claim is listed, no condition
    is set, no workload is asked for. *)
Theorem Execute_hook_error
    (cfg : Configuration) (W : backupcontroller.Collaborators)
    (b : backupcontroller.BackupExecutor) (bk : Backup)
    (genericJob : Job) (ready : bool) (err : error) :
  Obj (backupcontroller.Generic b) = ObjBackup bk →
  HasFailed (backupStatus bk) = false →
  HasSucceeded (backupStatus bk) = false →
  HasStarted (backupStatus bk) = false →
  backupcontroller.serviceAccountAnswer W = None →
  backupcontroller.generateGenericJob W (ObjBackup bk)
    (backupcontroller.Generic b) = (genericJob, None) →
  backupcontroller.preBackupAnswer W = (ready, Some err) →
  backupcontroller.Execute cfg W b =
    mkEff [EvCreateServiceAccountAndBinding; EvStartPreBackup]
          (Done ({| backupcontroller.Generic := backupcontroller.Generic b;
                    backupcontroller.backup := Some bk |}, Some err)).
Proof.
  intros Hobj Hf Hs Hst Hsa Hgen Hpre. enter_not_started Hobj Hf Hs Hst.
  rewrite Hsa. unfold mbind at 1, Eff_bind at 1. cbn [trace result].
  rewrite ?Hobj, Hgen.
  unfold backupcontroller.startBackup, backupcontroller.StartPreBackup, call.
  by rewrite Hpre.
Qed.

Lemma Execute_hook_error_witness :
  backupcontroller.Execute Samples.cfg
    (earlyWorld None (Samples.genericJob "backup-nightly" "prod", None)
       (true, Some (errorString "scale failed")))
    (Samples.backupExecutor Samples.notStarted) =
  mkEff [EvCreateServiceAccountAndBinding; EvStartPreBackup]
    (Done ({| backupcontroller.Generic :=
                {| Obj := ObjBackup (Samples.backupIn Samples.notStarted) |};
              backupcontroller.backup :=
                Some (Samples.backupIn Samples.notStarted) |},
           Some (errorString "scale failed"))).
Proof.
  exact (Execute_hook_error Samples.cfg
           (earlyWorld None (Samples.genericJob "backup-nightly" "prod", None)
              (true, Some (errorString "scale failed")))
           (Samples.backupExecutor Samples.notStarted)
           (Samples.backupIn Samples.notStarted)
           (Samples.genericJob "backup-nightly" "prod") true
           (errorString "scale failed")
           eq_refl eq_refl eq_refl eq_refl eq_refl eq_refl eq_refl).
Defined.

(** X8. The gate open, when the listing of claims fails: [Execute] sets the
    condition Ready to false with the reason RetrievalFailed and the error's
    text as its message, returns that error and asks for no workload. *)
Theorem Execute_retrieval_failed
    (cfg : Configuration) (W : backupcontroller.Collaborators)
    (b : backupcontroller.BackupExecutor) (bk : Backup)
    (genericJob : Job) (items : list PersistentVolumeClaim) (err : error) :
  Obj (backupcontroller.Generic b) = ObjBackup bk →
  HasFailed (backupStatus bk) = false →
  HasSucceeded (backupStatus bk) = false →
  HasStarted (backupStatus bk) = false →
  IsWaitingForPreBackup (backupStatus bk) = false →
  backupcontroller.serviceAccountAnswer W = None →
  backupcontroller.generateGenericJob W (ObjBackup bk)
    (backupcontroller.Generic b) = (genericJob, None) →
  backupcontroller.preBackupAnswer W = (true, None) →
  backupcontroller.claimListAnswer W = (items, Some err) →
  backupcontroller.Execute cfg W b =
    mkEff [EvCreateServiceAccountAndBinding; EvStartPreBackup;
           EvLogInfo "Listing all PVCs"
             [("annotation", BackupAnnotation cfg)];
           EvFetchPVCs;
           EvSetConditionFalseWithMessage ConditionReady
             ReasonRetrievalFailed (Error err) []]
          (Done ({| backupcontroller.Generic := backupcontroller.Generic b;
                    backupcontroller.backup := Some bk |}, Some err)).
Proof.
  intros Hobj Hf Hs Hst Hw Hsa Hgen Hpre Hfetch.
  enter_not_started Hobj Hf Hs Hst.
  rewrite Hsa. unfold mbind at 1, Eff_bind at 1. cbn [trace result].
  rewrite ?Hobj, Hgen.
  unfold backupcontroller.startBackup, backupcontroller.StartPreBackup, call.
  rewrite listAndFilterPVCs_eq, Hpre, Hfetch. simpl. by rewrite Hw.
Qed.

Lemma Execute_retrieval_failed_witness :
  result (backupcontroller.Execute Samples.cfg
            (failingListWorld (errorString "forbidden"))
            (Samples.backupExecutor Samples.notStarted)) =
  Done ({| backupcontroller.Generic :=
             {| Obj := ObjBackup (Samples.backupIn Samples.notStarted) |};
           backupcontroller.backup :=
             Some (Samples.backupIn Samples.notStarted) |},
        Some (errorString "forbidden")).
Proof.
  rewrite (Execute_retrieval_failed Samples.cfg
             (failingListWorld (errorString "forbidden"))
             (Samples.backupExecutor Samples.notStarted)
             (Samples.backupIn Samples.notStarted)
             (Samples.genericJob "backup-nightly" "prod") []
             (errorString "forbidden")
             eq_refl eq_refl eq_refl eq_refl eq_refl eq_refl eq_refl
             eq_refl eq_refl).
  reflexivity.
Defined.

(** X9. The gate open and every step answering without error, [Execute]
    makes its calls in this order: the service account, the hooks, the
    listing of claims with one log line per claim, then one request for the
    workload.  The job it asks for is the generated template with the
    discovered volumes, the configured service account and, on its first
    container, the environment, the mounts of those volumes and the tag
    arguments; the other containers, the name, the namespace and the labels
    are the template's.  [Execute] returns what the creation answers. *)
Theorem Execute_created_job
    (cfg : Configuration) (W : backupcontroller.Collaborators)
    (b : backupcontroller.BackupExecutor) (bk : Backup)
    (genericJob : Job) (c0 : Container) (cs : list Container)
    (items : list PersistentVolumeClaim) :
  Obj (backupcontroller.Generic b) = ObjBackup bk →
  HasFailed (backupStatus bk) = false →
  HasSucceeded (backupStatus bk) = false →
  HasStarted (backupStatus bk) = false →
  IsWaitingForPreBackup (backupStatus bk) = false →
  backupcontroller.serviceAccountAnswer W = None →
  backupcontroller.generateGenericJob W (ObjBackup bk)
    (backupcontroller.Generic b) = (genericJob, None) →
  jobContainers genericJob = c0 :: cs →
  backupcontroller.preBackupAnswer W = (true, None) →
  backupcontroller.claimListAnswer W = (items, None) →
  let volumes :=
    map backupcontroller.tmpVol
      (List.filter (eligible W (BackupAnnotation cfg)) items) in
  let j :=
    {| jobName_ := jobName_ genericJob;
       jobNamespace := jobNamespace genericJob;
       jobLabels := jobLabels genericJob;
       jobContainers := backupContainer W bk volumes c0 :: cs;
       jobVolumes := volumes;
       jobServiceAccountName := ServiceAccount cfg |} in
  backupcontroller.Execute cfg W b =
    mkEff ([EvCreateServiceAccountAndBinding; EvStartPreBackup;
            EvLogInfo "Listing all PVCs"
              [("annotation", BackupAnnotation cfg)];
            EvFetchPVCs]
           ++ map (itemLog W (BackupAnnotation cfg)) items
           ++ [EvCreateObjectIfNotExisting j])
          (Done ({| backupcontroller.Generic := backupcontroller.Generic b;
                    backupcontroller.backup := Some bk |},
                 backupcontroller.createAnswer W j)).
Proof.
  intros Hobj Hf Hs Hst Hw Hsa Hgen Hcs Hpre Hfetch volumes j.
  enter_not_started Hobj Hf Hs Hst.
  rewrite Hsa. unfold mbind at 1, Eff_bind at 1. cbn [trace result].
  rewrite ?Hobj, Hgen.
  unfold backupcontroller.startBackup, backupcontroller.StartPreBackup, call.
  rewrite listAndFilterPVCs_eq, Hpre, Hfetch. simpl. rewrite Hw. simpl.
  destruct genericJob as [n ns l cs' vs sa]. simpl in Hcs. subst cs'.
  simpl. rewrite ?app_nil_r. subst j volumes. reflexivity.
Qed.

Lemma Execute_created_job_witness :
  createdJobs
    (trace (backupcontroller.Execute Samples.cfg
              (Samples.backupWorld true [Samples.rwoOptIn])
              (Samples.backupExecutor Samples.notStarted))) =
  [{| jobName_ := "backup-nightly"; jobNamespace := "prod";
      jobLabels := Some ∅;
      jobContainers :=
        [{| cEnv := [];
            cVolumeMounts :=
              [{| vmName := "db"; vmMountPath := "/data/db";
                  vmReadOnly := true |}];
            cArgs := [] |}];
      jobVolumes := [backupcontroller.tmpVol Samples.rwoOptIn];
      jobServiceAccountName := "pod-executor" |}].
Proof.
  rewrite (Execute_created_job Samples.cfg
             (Samples.backupWorld true [Samples.rwoOptIn])
             (Samples.backupExecutor Samples.notStarted)
             (Samples.backupIn Samples.notStarted)
             (Samples.genericJob "backup-nightly" "prod")
             Samples.container0 [] [Samples.rwoOptIn]
             eq_refl eq_refl eq_refl eq_refl eq_refl eq_refl eq_refl
             eq_refl eq_refl eq_refl).
  vm_compute. reflexivity.
Defined.

(** X10. A generated template without any container: [Execute] panics on
    the index of the first container, after the claims were listed and
    before any workload is asked for. *)
Theorem Execute_panics_without_container
    (cfg : Configuration) (W : backupcontroller.Collaborators)
    (b : backupcontroller.BackupExecutor) (bk : Backup)
    (genericJob : Job) (items : list PersistentVolumeClaim) :
  Obj (backupcontroller.Generic b) = ObjBackup bk →
  HasFailed (backupStatus bk) = false →
  HasSucceeded (backupStatus bk) = false →
  HasStarted (backupStatus bk) = false →
  IsWaitingForPreBackup (backupStatus bk) = false →
  backupcontroller.serviceAccountAnswer W = None →
  backupcontroller.generateGenericJob W (ObjBackup bk)
    (backupcontroller.Generic b) = (genericJob, None) →
  jobContainers genericJob = [] →
  backupcontroller.preBackupAnswer W = (true, None) →
  backupcontroller.claimListAnswer W = (items, None) →
  result (backupcontroller.Execute cfg W b) =
    Panicked "index out of range [0] with length 0"
  ∧ In EvFetchPVCs (trace (backupcontroller.Execute cfg W b))
  ∧ createdJobs (trace (backupcontroller.Execute cfg W b)) = [].
Proof.
  intros Hobj Hf Hs Hst Hw Hsa Hgen Hcs Hpre Hfetch.
  enter_not_started Hobj Hf Hs Hst.
  rewrite Hsa. unfold mbind at 1, Eff_bind at 1. cbn [trace result].
  rewrite ?Hobj, Hgen.
  unfold backupcontroller.startBackup, backupcontroller.StartPreBackup, call.
  rewrite listAndFilterPVCs_eq, Hpre, Hfetch. simpl. rewrite Hw. simpl.
  destruct genericJob as [n ns l cs' vs sa]. simpl in Hcs. subst cs'.
  simpl. split; [done|]. split; [tauto|].
  by rewrite !app_nil_r, createdJobs_itemLog.
Qed.

Lemma Execute_panics_without_container_witness :
  result (backupcontroller.Execute Samples.cfg
            (earlyWorld None (zeroJob, None) (true, None))
            (Samples.backupExecutor Samples.notStarted)) =
  Panicked "index out of range [0] with length 0".
Proof.
  exact (proj1 (Execute_panics_without_container Samples.cfg
                  (earlyWorld None (zeroJob, None) (true, None))
                  (Samples.backupExecutor Samples.notStarted)
                  (Samples.backupIn Samples.notStarted) zeroJob
                  [Samples.rwxPlain]
                  eq_refl eq_refl eq_refl eq_refl eq_refl eq_refl eq_refl
                  eq_refl eq_refl eq_refl)).
Defined.



(** X12. [Execute] asks for at most one workload in a call.  It stops the
    pre-backup deployments only for a backup that has failed or succeeded,
    and then it asks for none. *)
Theorem Execute_one_workload_or_teardown
    (cfg : Configuration) (W : backupcontroller.Collaborators)
    (b : backupcontroller.BackupExecutor) :
  (length (createdJobs (trace (backupcontroller.Execute cfg W b))) ≤ 1)%nat
  ∧ (In EvStopPreBackupDeployments (trace (backupcontroller.Execute cfg W b)) →
     createdJobs (trace (backupcontroller.Execute cfg W b)) = []
     ∧ ∃ bk, Obj (backupcontroller.Generic b) = ObjBackup bk
             ∧ (HasFailed (backupStatus bk) = true
                ∨ HasSucceeded (backupStatus bk) = true)).
Proof.
  unfold backupcontroller.Execute.
  destruct (Obj (backupcontroller.Generic b)) as [bk| |] eqn:Hobj;
    [|by (simpl; split; [lia|tauto])..].
  destruct (HasFailed (backupStatus bk) || HasSucceeded (backupStatus bk))
    eqn:Hterm.
  { simpl. split; [lia|]. intros _. split; [done|].
    exists bk. split; [done|]. by apply orb_true_iff. }
  destruct (HasStarted _); [by (simpl; split; [lia|tauto])|].
  unfold backupcontroller.createServiceAccountAndBinding, call.
  unfold mbind at 1, Eff_bind at 1. cbn [trace result].
  destruct (backupcontroller.serviceAccountAnswer W).
  { simpl. split; [lia|]. intros [H|[]]. discriminate H. }
  destruct (backupcontroller.generateGenericJob W _ _) as [genericJob [e|]].
  { simpl. split; [lia|]. intros [H|[]]. discriminate H. }
  unfold mbind, Eff_bind.
  destruct (startBackup_trace_shape cfg W
              {| backupcontroller.Generic := backupcontroller.Generic b;
                 backupcontroller.backup := Some bk |} genericJob)
    as [Hlen Hstop].
  destruct (backupcontroller.startBackup _ _ _ _) as [t [r|w]];
    cbn in *; rewrite ?app_nil_r; (split; [done|]);
    intros [H|H]; try discriminate H; by apply Hstop in H.
Qed.

(** X13. [Execute] never changes the configuration of its executor.  When it
    returns, the executor's [backup] pointer is the backup object of the
    configuration; for an object of another kind the pointer is left as it
    was. *)
Theorem Execute_keeps_config
    (cfg : Configuration) (W : backupcontroller.Collaborators)
    (b b' : backupcontroller.BackupExecutor) (err : option error) :
  result (backupcontroller.Execute cfg W b) = Done (b', err) →
  backupcontroller.Generic b' = backupcontroller.Generic b
  ∧ backupcontroller.backup b' =
    match Obj (backupcontroller.Generic b) with
    | ObjBackup bk => Some bk
    | _ => backupcontroller.backup b
    end.
Proof.
  unfold backupcontroller.Execute.
  destruct (Obj (backupcontroller.Generic b)) as [bk| |] eqn:Hobj;
    [|by (simpl; intros [= <- _])..].
  destruct (HasFailed _ || HasSucceeded _); [by (simpl; intros [= <- _])|].
  destruct (HasStarted _); [by (simpl; intros [= <- _])|].
  unfold backupcontroller.createServiceAccountAndBinding, call.
  unfold mbind at 1, Eff_bind at 1. cbn [trace result].
  destruct (backupcontroller.serviceAccountAnswer W);
    [by (simpl; intros [= <- _])|].
  destruct (backupcontroller.generateGenericJob W _ _) as [genericJob [e|]];
    [by (simpl; intros [= <- _])|].
  unfold mbind, Eff_bind.
  destruct (backupcontroller.startBackup _ _ _ _) as [t [r|w]]; cbn;
    [by intros [= <- _]|done].
Qed.

Lemma Execute_keeps_config_witness :
  backupcontroller.backup
    {| backupcontroller.Generic :=
         {| Obj := ObjBackup (Samples.backupIn Samples.started) |};
       backupcontroller.backup := Some (Samples.backupIn Samples.started) |} =
  Some (Samples.backupIn Samples.started).
Proof.
  exact (proj2 (Execute_keeps_config Samples.cfg
                  (Samples.backupWorld true [])
                  (Samples.backupExecutor Samples.started) _ None
                  eq_refl)).
Defined.

Lemma Execute_one_workload_or_teardown_witness :
  createdJobs
    (trace (backupcontroller.Execute Samples.cfg
              (Samples.backupWorld true [Samples.rwxPlain])
              (Samples.backupExecutor Samples.succeeded))) = [].
Proof.
  refine (proj1 (proj2 (Execute_one_workload_or_teardown Samples.cfg
                          (Samples.backupWorld true [Samples.rwxPlain])
                          (Samples.backupExecutor Samples.succeeded)) _)).
  vm_compute. by left.
Defined.

(** ** Further properties of the check executor *)

(** The loop over the declared volumes in closed form. *)
Lemma rangeVolumes_eq (vs : list RunnableVolumeSpec)
    (moreVolumes : list Volume) :
  checkcontroller.rangeVolumes vs moreVolumes =
  moreVolumes ++ omap declaredVolume vs.
Proof.
  revert moreVolumes. induction vs as [|vol rest IH]; intros more.
  - simpl. by rewrite app_nil_r.
  - simpl. unfold declaredVolume at 1.
    destruct (rvPersistentVolumeClaim vol), (rvSecret vol), (rvConfigMap vol);
      rewrite IH, <- ?app_assoc; done.
Qed.

Lemma attachMoreVolumes_eq (c : checkcontroller.CheckExecutor) :
  checkcontroller.attachMoreVolumes c =
  checkcontroller.ku8pVolume
  :: omap declaredVolume (default [] (checkVolumes (checkcontroller.check c))).
Proof.
  unfold checkcontroller.attachMoreVolumes.
  destruct (checkVolumes (checkcontroller.check c)) as [[|vol vs]|];
    [done| |done].
  cbn -[checkcontroller.rangeVolumes]. by rewrite rangeVolumes_eq.
Qed.

Lemma declaredVolume_Some (vol : RunnableVolumeSpec) (v : Volume) :
  declaredVolume vol = Some v →
  volName v = rvName vol ∧ sourceCount (volSource v) = 1
  ∧ vsEmptyDir (volSource v) = None.
Proof.
  unfold declaredVolume.
  destruct (rvPersistentVolumeClaim vol), (rvSecret vol), (rvConfigMap vol);
    intros [= <-]; done.
Qed.

Lemma omap_length_le {A B : Type} (f : A → option B) (l : list A) :
  (length (omap f l) ≤ length l)%nat.
Proof.
  induction l as [|a l IH]; csimpl; [done|]. destruct (f a); csimpl; lia.
Qed.

Lemma append_inj_l (p a b : string) : p +:+ a = p +:+ b → a = b.
Proof. induction p as [|ch p IH]; simpl; [done|]. intros [= H]. auto. Qed.

(** X14. The volumes of a check are the scratch volume first, then, in the
    order of their declaration, one volume for each declared volume that has
    a source: its claim if it has one, else its secret, else its config map,
    never two of them.  A declared volume without any source is left out. *)
Theorem attachMoreVolumes_closed_form (c : checkcontroller.CheckExecutor) :
  checkcontroller.attachMoreVolumes c =
  checkcontroller.ku8pVolume
  :: omap declaredVolume (default [] (checkVolumes (checkcontroller.check c))).
Proof. apply attachMoreVolumes_eq. Qed.

(** X15. Every volume of a check has exactly one source set, there is at
    most one volume more than the check declares, and after the scratch
    volume the names are names of declared volumes, in their order. *)
Theorem attachMoreVolumes_well_formed (c : checkcontroller.CheckExecutor) :
  let declared := default [] (checkVolumes (checkcontroller.check c)) in
  Forall (λ v, sourceCount (volSource v) = 1)
         (checkcontroller.attachMoreVolumes c)
  ∧ (length (checkcontroller.attachMoreVolumes c) ≤ 1 + length declared)%nat
  ∧ sublist (map volName (tail (checkcontroller.attachMoreVolumes c)))
            (map rvName declared).
Proof.
  intros declared. rewrite attachMoreVolumes_eq. fold declared. simpl.
  split; [|split].
  - constructor; [done|].
    apply Forall_forall. intros v Hv.
    apply list_elem_of_omap in Hv as (vol & _ & Hvol).
    by apply declaredVolume_Some in Hvol as (_ & ? & _).
  - pose proof (omap_length_le declaredVolume declared). lia.
  - induction declared as [|vol vs IH]; csimpl; [done|].
    destruct (declaredVolume vol) as [v|] eqn:E; csimpl.
    + apply declaredVolume_Some in E as (-> & _). by apply sublist_skip.
    + by apply sublist_cons.
Qed.

(** X16. The mounts of a check are the mounts its backend declares, in
    their order, then the mount of the scratch volume at the configured
    directory, which is therefore always the last one; without a backend or
    without backend mounts it is the only one. *)
Theorem attachMoreVolumeMounts_shape (cfg : Configuration)
    (c : checkcontroller.CheckExecutor) :
  checkcontroller.attachMoreVolumeMounts cfg c =
    backendMounts (checkcontroller.check c) ++ [scratchMount cfg]
  ∧ last (checkcontroller.attachMoreVolumeMounts cfg c) = Some (scratchMount cfg).
Proof.
  assert (E : checkcontroller.attachMoreVolumeMounts cfg c =
              backendMounts (checkcontroller.check c) ++ [scratchMount cfg]).
  { unfold checkcontroller.attachMoreVolumeMounts, backendMounts.
    destruct (checkBackend (checkcontroller.check c)) as [be|]; simpl;
      [|done].
    by destruct (beVolumeMounts be) as [[|m ms]|]. }
  split; [done|]. rewrite E. apply last_snoc.
Qed.

(** X17. When the template step answers without error on a job that has a
    container and labels, the upsert closure succeeds, and the job it leaves
    is the template's with the exclusivity label set to true, the volumes
    of [attachMoreVolumes] and, on the first container, the environment,
    the mounts of [attachMoreVolumeMounts] and the arguments of
    [setupArgs]; name, namespace, service account and the other containers
    are untouched. *)
Theorem mutate_success
    (cfg : Configuration) (W : checkcontroller.Collaborators)
    (c : checkcontroller.CheckExecutor) (j j1 : Job)
    (c0 : Container) (cs : list Container) (l : gmap string string) :
  checkcontroller.MutateBatchJob W j (checkcontroller.check c)
    (checkcontroller.Generic c) = (j1, None) →
  jobContainers j1 = c0 :: cs →
  jobLabels j1 = Some l →
  checkcontroller.mutate cfg W c j =
    Done ({| jobName_ := jobName_ j1; jobNamespace := jobNamespace j1;
             jobLabels := Some (<[checkcontroller.K8upExclusive W := "true"]> l);
             jobContainers := checkContainer cfg W c c0 :: cs;
             jobVolumes := checkcontroller.attachMoreVolumes c;
             jobServiceAccountName := jobServiceAccountName j1 |}, None).
Proof.
  intros Hm Hcs Hl. unfold checkcontroller.mutate. rewrite Hm.
  destruct j1 as [n ns l' cs' vs sa]. simpl in Hcs, Hl. subst cs' l'.
  reflexivity.
Qed.

Lemma mutate_success_witness :
  ∃ j', checkcontroller.mutate Samples.cfg (Samples.checkWorld None)
          Samples.checkExecutor
          (setJobName "check-weekly" "prod" zeroJob) = Done (j', None)
        ∧ jobLabels j' = Some {["k8upjob/exclusive" := "true"]}.
Proof.
  eexists. split.
  - exact (mutate_success Samples.cfg (Samples.checkWorld None)
             Samples.checkExecutor
             (setJobName "check-weekly" "prod" zeroJob) _
             Samples.container0 [] ∅ eq_refl eq_refl eq_refl).
  - reflexivity.
Defined.

(** X18. The upsert closure relies on the template step for a container and
    for a label map: when that step answers without error on a job with no
    container or with nil labels, the closure panics, on the index of the
    first container or on the assignment of the exclusivity label. *)
Theorem mutate_panics_on_bare_template
    (cfg : Configuration) (W : checkcontroller.Collaborators)
    (c : checkcontroller.CheckExecutor) (j j1 : Job) :
  checkcontroller.MutateBatchJob W j (checkcontroller.check c)
    (checkcontroller.Generic c) = (j1, None) →
  jobContainers j1 = [] ∨ jobLabels j1 = None →
  checkcontroller.mutate cfg W c j =
    Panicked (if decide (jobContainers j1 = [])
              then "index out of range [0] with length 0"
              else "assignment to entry in nil map").
Proof.
  intros Hm Hbare. unfold checkcontroller.mutate. rewrite Hm.
  destruct j1 as [n ns l cs vs sa]. simpl in *.
  destruct cs as [|c0 cs]; [done|].
  destruct Hbare as [Hc|Hl]; [done|]. by subst l.
Qed.

Lemma mutate_panics_on_bare_template_witness :
  checkcontroller.mutate Samples.cfg (templateWorld (zeroJob, None))
    Samples.checkExecutor (setJobName "check-weekly" "prod" zeroJob) =
  Panicked "index out of range [0] with length 0".
Proof.
  exact (mutate_panics_on_bare_template Samples.cfg
           (templateWorld (zeroJob, None)) Samples.checkExecutor
           (setJobName "check-weekly" "prod" zeroJob) zeroJob
           eq_refl (or_introl eq_refl)).
Defined.

(** X19. Whenever the upsert closure succeeds, the job it leaves carries the
    exclusivity label with the value true, whatever value the template gave
    it, and every other label as the template step left it. *)
Theorem mutate_labels
    (cfg : Configuration) (W : checkcontroller.Collaborators)
    (c : checkcontroller.CheckExecutor) (j j' : Job) :
  checkcontroller.mutate cfg W c j = Done (j', None) →
  ∃ l l' : gmap string string,
    jobLabels (fst (checkcontroller.MutateBatchJob W j
                      (checkcontroller.check c) (checkcontroller.Generic c)))
      = Some l
    ∧ jobLabels j' = Some l'
    ∧ l' !! checkcontroller.K8upExclusive W = Some "true"
    ∧ ∀ k, k ≠ checkcontroller.K8upExclusive W → l' !! k = l !! k.
Proof.
  unfold checkcontroller.mutate.
  destruct (checkcontroller.MutateBatchJob W j _ _) as [j1 [e|]]; [done|].
  destruct j1 as [n ns [l|] [|c0 cs] vs sa]; simpl; try done.
  intros [= <-]. exists l. eexists. simpl.
  split; [done|]. split; [done|]. split.
  - apply lookup_insert_eq.
  - intros k Hk. by apply lookup_insert_ne.
Qed.

Lemma mutate_labels_witness :
  ∃ j' l',
    checkcontroller.mutate Samples.cfg (Samples.checkWorld None)
      Samples.checkExecutor (setJobName "check-weekly" "prod" zeroJob)
      = Done (j', None)
    ∧ jobLabels j' = Some l'
    ∧ l' !! "k8upjob/exclusive" = Some "true".
Proof.
  eexists.
  destruct (mutate_labels Samples.cfg (Samples.checkWorld None)
              Samples.checkExecutor
              (setJobName "check-weekly" "prod" zeroJob) _ eq_refl)
    as (l & l' & _ & Hl' & Hex & _).
  exists l'. split; [reflexivity|]. split; [exact Hl'|exact Hex].
Defined.

(** X20. The name of a check's job is the word check, a dash and the name
    of the check; two checks get the same job name only when they have the
    same name. *)
Theorem jobName_injective (c1 c2 : checkcontroller.CheckExecutor) :
  checkcontroller.jobName c1 =
    "check-" +:+ checkName (checkcontroller.check c1)
  ∧ (checkcontroller.jobName c1 = checkcontroller.jobName c2 →
     checkName (checkcontroller.check c1) =
     checkName (checkcontroller.check c2)).
Proof.
  split; [done|]. unfold checkcontroller.jobName. intros H.
  by do 2 apply append_inj_l in H.
Qed.

Lemma jobName_injective_witness :
  checkcontroller.jobName Samples.checkExecutor = "check-weekly".
Proof.
  exact (proj1 (jobName_injective Samples.checkExecutor
                  Samples.checkExecutor)).
Defined.
